(** * sds011-aqi: a shallow embedding of [get_aqi.py]

    The script polls an SDS011 particulate-matter sensor, keeps a rolling
    window of readings per pollutant, computes a country-specific AQI and
    exports the result to Prometheus metrics, a CSV log, an MQTT broker and
    the Turris Omnia LEDs.

    Modelling conventions.
    - Python [int] is [Z]; [//] is [Z.div] (both round towards minus
      infinity), and a zero divisor raises [ZeroDivisionError].
    - Python [float] is the kernel's binary64 [float]: [+], [-] and [/] are
      the IEEE 754 operations, so the rounding errors of the script are
      those of the model. [float(n)] of an [int] is the nearest double;
      [round(x, 1)] is CPython's: the one-digit decimal nearest to the exact
      value of [x], ties to even, read back as the nearest double; [sum]
      adds from the left, as CPython does up to 3.11. An [int] beyond the
      range of a double and a sleep beyond the platform's limit are left
      out.
    - [str] is [string]; [None] is a constructor of its own where a function
      can return it.
    - Effects are explicit: a world record holds the sensor's scripted
      replies, the two deques and the trace of calls made to the outside
      (sleeps, metrics, files, log, MQTT); exceptions are the left injection
      of a state-and-error monad.
    - The machine is a parameter [omnia]: the LED class files of a Turris
      Omnia are there to be written, or [open] on them raises [OSError].
    - The [aqipy] package is an external library: its six entry points are
      fields of a record the program is parameterised by. *)

From Stdlib Require Import Floats.
From Stdlib Require Import ZArith QArith Qround List String Ascii Bool Lia Lqa.
Import ListNotations.

Open Scope string_scope.
Open Scope Z_scope.

(** A decimal literal stands for the nearest double, as it does in Python. *)
Set Warnings "-inexact-float".

(** ** Python primitives *)

(** [needle in hay] on two [str] values: substring test. *)
Fixpoint str_contains (hay needle : string) : bool :=
  String.prefix needle hay
  || match hay with
     | EmptyString => false
     | String _ hay' => str_contains hay' needle
     end.

(** [x in (a, b, ...)] on a tuple of [str]: equality with some element. *)
Definition tuple_contains (t : list string) (x : string) : bool :=
  existsb (String.eqb x) t.

(** [s.endswith(suffix)]. *)
Fixpoint endswith (s suffix : string) : bool :=
  String.eqb s suffix
  || match s with
     | EmptyString => false
     | String _ s' => endswith s' suffix
     end.

(** [s.rstrip(c)] for a one-character argument: drops every trailing [c]. *)
Fixpoint rstrip (c : ascii) (s : string) : string :=
  match s with
  | EmptyString => EmptyString
  | String a s' =>
      match rstrip c s' with
      | EmptyString => if Ascii.eqb a c then EmptyString else String a EmptyString
      | r => String a r
      end
  end.


(** Round-half-to-even of a rational to an integer. *)
Definition round_half_even (q : Q) : Z :=
  let f := Qfloor q in
  match (q - inject_Z f ?= 1 # 2)%Q with
  | Lt => f
  | Gt => f + 1
  | Eq => if Z.even f then f else f + 1
  end.

(** [float(n)] of an [int]: the nearest double, ties to even. *)
Definition float_of_Z (n : Z) : float :=
  SF2Prim (binary_normalize prec emax n 0 false).

(** The rational [m * 2 ^ e]. *)
Definition magnitude (m : positive) (e : Z) : Q :=
  if 0 <=? e then inject_Z (Zpos m * 2 ^ e)
  else (Zpos m # Pos.pow 2 (Z.to_pos (- e)))%Q.

(** The rational a finite double stands for, and 0 for an infinity and for
    NaN. *)
Definition float_to_Q (x : float) : Q :=
  match Prim2SF x with
  | S754_finite s m e => if s then (- magnitude m e)%Q else magnitude m e
  | _ => 0%Q
  end.

(** [round(x, 1)]: CPython takes the decimal with one digit after the point
    that is nearest to the exact value of [x], ties to even, and reads it
    back as the nearest double, keeping the sign. Zeros, infinities and NaN
    round to themselves, and so does a double of magnitude 2 ^ 49 or more:
    it is a multiple of one eighth, the decimal lies within one twentieth
    of it, and no other double is as near to the decimal. Below 2 ^ 49 the
    tenths fit in 53 bits, so that their conversion is exact and the
    division gives the double nearest to the decimal. *)
Definition py_round1 (x : float) : float :=
  match Prim2SF x with
  | S754_finite s m e =>
      if -3 <=? e then x
      else
        let tenths := round_half_even (magnitude m e * (10 # 1)) in
        let r := (float_of_Z tenths / 10)%float in
        if s then (- r)%float else r
  | _ => x
  end.

(** [sum(xs)]: left-to-right accumulation from the integer 0. *)
Definition py_sum (xs : list float) : float := fold_left PrimFloat.add xs 0%float.

(** ** Exceptions *)

Inductive exn : Type :=
| SensorError            (* raised by the SDS011 driver *)
| ZeroDivisionError
| TypeError
| KeyError
| ValueError
| OSError
| SystemExit (code : Z).

(** ** AQI policy table *)

Definition get_aqi_interval (country : string) : Z :=
  if tuple_contains ["CN"; "US"] country then 86400
  else if str_contains "EU" country then 3600
  else -1.

(** Module-level computation of [num_measures] from [--country] and
    [--delay]. *)
Definition num_measures (country : string) (delay : Z) : exn + Z :=
  let aqi_interval := get_aqi_interval country in
  if delay =? 0 then inl ZeroDivisionError
  else
    let n := aqi_interval / delay in
    inr (if n <=? 0 then 1 else n).

(** The averaging period as the specification words it: 24 hours for CN and
    US, one hour for EU. *)
Definition averaging_seconds (country : string) : Z :=
  if String.eqb country "CN" then 86400
  else if String.eqb country "US" then 86400
  else if String.eqb country "EU" then 3600
  else 0.

Definition country_choices : list string := ["CN"; "EU"; "US"].

(** ** Color lookup *)

(** What [get_aqi_color] can hand back: a [str], or [None] when control
    falls off the end of the function. *)
Inductive pycolor : Type :=
| PyStr (s : string)
| PyNone.

Definition get_aqi_color (aqi_level country : string) : pycolor :=
  if String.eqb country "CN" then
    if String.eqb aqi_level "excellent" then PyStr "0 255 0"
    else if String.eqb aqi_level "good" then PyStr "255 255 0"
    else if String.eqb aqi_level "lightly polluted" then PyStr "255 153 0"
    else if String.eqb aqi_level "moderately polluted" then PyStr "255 0 0"
    else if String.eqb aqi_level "heavily polluted" then PyStr "84 0 153"
    else if String.eqb aqi_level "severely polluted" then PyStr "128 0 0"
    else PyNone
  else if String.eqb country "EU" then
    if String.eqb aqi_level "very low" then PyStr "0 255 0"
    else if String.eqb aqi_level "low" then PyStr "163 255 15"
    else if String.eqb aqi_level "medium" then PyStr "255 255 0"
    else if String.eqb aqi_level "high" then PyStr "255 153 0"
    else if String.eqb aqi_level "very high" then PyStr "255 0 0"
    else PyNone
  else if String.eqb country "US" then
    if String.eqb aqi_level "Good" then PyStr "121 227 71"
    else if String.eqb aqi_level "Moderate" then PyStr "251 255 93"
    else if String.eqb aqi_level "Unhealthy for Sensitive Groups" then PyStr "226 138 54"
    else if String.eqb aqi_level "Unhealthy" then PyStr "234 51 36"
    else if String.eqb aqi_level "Very Unhealthy" then PyStr "126 63 185"
    else if String.eqb aqi_level "Hazardous" then PyStr "126 63 185"
    else PyNone
  else PyStr "".

(** The levels each supported country's branch maps to a color. *)
Definition mapped_levels (country : string) : list string :=
  if String.eqb country "CN" then
    ["excellent"; "good"; "lightly polluted"; "moderately polluted";
     "heavily polluted"; "severely polluted"]
  else if String.eqb country "EU" then
    ["very low"; "low"; "medium"; "high"; "very high"]
  else if String.eqb country "US" then
    ["Good"; "Moderate"; "Unhealthy for Sensitive Groups"; "Unhealthy";
     "Very Unhealthy"; "Hazardous"]
  else [].

(** ** Rolling window: [collections.deque(maxlen=n)] *)

Record deque : Type := { maxlen : nat; items : list float }.

Definition deque_new (n : nat) : deque := {| maxlen := n; items := [] |}.

(** [d.append(x)]: add on the right, then drop the leftmost element if the
    length exceeds [maxlen]. *)
Definition deque_append (d : deque) (x : float) : deque :=
  let l := (items d ++ [x])%list in
  {| maxlen := maxlen d;
     items := if (maxlen d <? List.length l)%nat then tl l else l |}.

(** [sum(d) / len(d)]: on an empty deque the integer 0 is divided by the
    integer 0. *)
Definition deque_average (d : deque) : exn + float :=
  match items d with
  | [] => inl ZeroDivisionError
  | _ => inr (py_sum (items d) / float_of_Z (Z.of_nat (List.length (items d))))%float
  end.

(** The last [n] elements of a list. *)
Definition lastn {A} (n : nat) (l : list A) : list A :=
  skipn (List.length l - n) l.

(** ** The aqipy library, as the program sees it *)

(** The [data] dictionary returned next to the index. *)
Definition aqi_data : Type := list (string * Z).

(** The third component of [compute_aqi]'s result: the empty [str] it is
    initialised with, or the dictionary aqipy returns under
    [with_level=True]. *)
Inductive level_obj : Type :=
| LevelStr (s : string)
| LevelDict (d : list (string * string)).

Record aqipy : Type := {
  aqi_cn_get_aqi : float -> float -> Z * aqi_data;
  aqi_cn_get_aqi_with_level : float -> float -> Z * level_obj;
  caqi_eu_get_caqi : float -> float -> Z * aqi_data;
  caqi_eu_get_caqi_with_level : float -> float -> Z * level_obj;
  aqi_us_get_aqi : float -> float -> Z * aqi_data;
  aqi_us_get_aqi_with_level : float -> float -> Z * level_obj
}.

Definition compute_aqi (lib : aqipy) (pm25 pm10 : float) (country : string)
  : Z * aqi_data * level_obj :=
  let current_aqi := -1 in
  let current_aqi_data : aqi_data := [] in
  let current_aqi_level := LevelStr "" in
  if String.eqb country "CN" then
    let '(current_aqi, current_aqi_data) := aqi_cn_get_aqi lib pm25 pm10 in
    let '(current_aqi, current_aqi_level) := aqi_cn_get_aqi_with_level lib pm25 pm10 in
    (current_aqi, current_aqi_data, current_aqi_level)
  else if String.eqb country "EU" then
    let '(current_aqi, current_aqi_data) := caqi_eu_get_caqi lib pm25 pm10 in
    let '(current_aqi, current_aqi_level) := caqi_eu_get_caqi_with_level lib pm25 pm10 in
    (current_aqi, current_aqi_data, current_aqi_level)
  else if String.eqb country "US" then
    let '(current_aqi, current_aqi_data) := aqi_us_get_aqi lib pm25 pm10 in
    let '(current_aqi, current_aqi_level) := aqi_us_get_aqi_with_level lib pm25 pm10 in
    (current_aqi, current_aqi_data, current_aqi_level)
  else (current_aqi, current_aqi_data, current_aqi_level).

(** [d[key]] on a dictionary kept as an association list. *)
Fixpoint dict_get (d : list (string * string)) (key : string) : option string :=
  match d with
  | [] => None
  | (k, v) :: d' => if String.eqb k key then Some v else dict_get d' key
  end.

(** [aqi_level["level"]]: a [str] cannot be indexed by a [str], a dictionary
    without the key raises [KeyError]. *)
Definition level_subscript (l : level_obj) (key : string) : exn + string :=
  match l with
  | LevelStr _ => inl TypeError
  | LevelDict d =>
      match dict_get d key with
      | Some v => inr v
      | None => inl KeyError
      end
  end.

(** ** The outside world *)

Inductive gauge : Type := PM25 | PM10.
Inductive histogram : Type := PM25_HIST | PM10_HIST.

(** The [buckets=] argument each histogram is created with. *)
Definition buckets (h : histogram) : list Z :=
  match h with
  | PM25_HIST => [0; 5; 10; 15; 20; 25; 30; 35; 40; 45; 50; 55; 60; 65; 70; 75; 80; 85; 90; 95; 100]
  | PM10_HIST => [0; 5; 10; 15; 20; 25; 30; 35; 40; 45; 50; 55; 60; 65; 70; 75; 80; 85; 90; 95; 100]
  end.

(** An MQTT payload is [str(v)] of a value; the value is kept. *)
Inductive payload : Type :=
| StrInt (z : Z)
| StrLevel (l : level_obj)
| StrFloat (q : float).

Record mqtt_message : Type := {
  msg_topic : string;
  msg_payload : payload;
  msg_qos : Z;
  msg_retain : bool
}.

(** Calls the program makes to its collaborators, in order. *)
Inductive event : Type :=
| Slept (seconds : Z)
| GaugeSet (g : gauge) (v : float)
| HistObserve (h : histogram) (v : float)
| FileOpenW (path : string)
| FileWrite (path content : string)
| LogAppend (logfile : string) (pm25 pm10 : float) (aqi : Z)
| MqttPublish (hostname : string) (port : Z) (messages : list mqtt_message)
| HttpServerStart (addr : string) (port : Z)
| LoggedListening (addr : string) (port : Z).

(** [sensor] is the script of the driver's replies, one per driver call:
    [Some r] is a call that returns (with the reading [r] when the call is a
    query), [None] a call that raises; a driver whose script is used up
    raises as well. The deques are module globals; before start-up creates
    them the world holds empty placeholders. *)
Record world : Type := {
  sensor : list (option (float * float));
  dequeue_pm25 : deque;
  dequeue_pm10 : deque;
  trace : list event
}.

Definition boot (script : list (option (float * float))) : world :=
  {| sensor := script; dequeue_pm25 := deque_new 0;
     dequeue_pm10 := deque_new 0; trace := [] |}.

(** Every event but a sleep leaves the process: metrics, files, log, MQTT. *)
Definition is_export (e : event) : bool :=
  match e with
  | Slept _ => false
  | _ => true
  end.

Definition is_metric (e : event) : bool :=
  match e with
  | GaugeSet _ _ | HistObserve _ _ => true
  | _ => false
  end.

Definition exports (w : world) : list event := filter is_export (trace w).
Definition metrics (w : world) : list event := filter is_metric (trace w).

(** ** State and exceptions *)

Definition M (A : Type) : Type := world -> (exn + A) * world.

Definition ret {A} (a : A) : M A := fun w => (inr a, w).

Definition raise {A} (e : exn) : M A := fun w => (inl e, w).

Definition bind {A B} (m : M A) (k : A -> M B) : M B :=
  fun w =>
    match m w with
    | (inl e, w') => (inl e, w')
    | (inr a, w') => k a w'
    end.

Notation "x <- m ;; k" := (bind m (fun x => k))
  (at level 61, m at next level, right associativity).
Notation "' pat <- m ;; k" := (bind m (fun x => match x with pat => k end))
  (at level 61, pat pattern, m at next level, right associativity).
Notation "m ;; k" := (bind m (fun _ => k))
  (at level 61, right associativity).

Definition lift {A} (r : exn + A) : M A := fun w => (r, w).

Definition emit (e : event) : M unit :=
  fun w =>
    (inr tt,
     {| sensor := sensor w; dequeue_pm25 := dequeue_pm25 w;
        dequeue_pm10 := dequeue_pm10 w; trace := (trace w ++ [e])%list |}).

(** One call into the SDS011 driver. *)
Definition sensor_call : M (float * float) :=
  fun w =>
    match sensor w with
    | [] => (inl SensorError, w)
    | reply :: rest =>
        let w' := {| sensor := rest; dequeue_pm25 := dequeue_pm25 w;
                     dequeue_pm10 := dequeue_pm10 w; trace := trace w |} in
        match reply with
        | Some r => (inr r, w')
        | None => (inl SensorError, w')
        end
    end.

(** [sensor.sleep(sleep=b)]: wake-up for [false], sleep for [true]. *)
Definition sensor_sleep (sleep : bool) : M unit :=
  _ <- sensor_call ;; ret tt.

(** [sensor.query()]. *)
Definition sensor_query : M (float * float) := sensor_call.

(** [time.sleep(s)]: a negative length raises [ValueError]. *)
Definition time_sleep (s : Z) : M unit :=
  if s <? 0 then raise ValueError else emit (Slept s).

(** [x / n] with a [float] numerator and an [int] denominator. *)
Definition float_div (x : float) (n : Z) : M float :=
  if n =? 0 then raise ZeroDivisionError else ret (x / float_of_Z n)%float.

(** ** Measurement sampler *)

(** The body of [for _ in range(measures)], [n] iterations left. *)
Fixpoint query_loop (n : nat) (operation_delay : Z) (acc : float * float) : M (float * float) :=
  match n with
  | O => ret acc
  | S n' =>
      x <- sensor_query ;;
      let current_pm25 := (fst acc + fst x)%float in
      let current_pm10 := (snd acc + snd x)%float in
      time_sleep operation_delay ;;
      query_loop n' operation_delay (current_pm25, current_pm10)
  end.

Definition get_data (measures start_delay operation_delay : Z) : M (float * float) :=
  sensor_sleep false ;;
  let current_pm25 := 0%float in
  let current_pm10 := 0%float in
  time_sleep start_delay ;;
  '(current_pm25, current_pm10) <-
     query_loop (Z.to_nat measures) operation_delay (current_pm25, current_pm10) ;;
  q25 <- float_div current_pm25 measures ;;
  let current_pm25 := py_round1 q25 in
  q10 <- float_div current_pm10 measures ;;
  let current_pm10 := py_round1 q10 in
  sensor_sleep true ;;
  time_sleep operation_delay ;;
  emit (GaugeSet PM25 current_pm25) ;;
  emit (GaugeSet PM10 current_pm10) ;;
  emit (HistObserve PM25_HIST current_pm25) ;;
  emit (HistObserve PM10_HIST (current_pm10 - current_pm25)%float) ;;
  ret (current_pm25, current_pm10).

(** ** Sinks *)

Definition newline : string := String (ascii_of_nat 10) EmptyString.

Definition led_user1_autonomous : string := "/sys/class/leds/omnia-led:user1/autonomous".
Definition led_user1_color : string := "/sys/class/leds/omnia-led:user1/color".
Definition led_user2_autonomous : string := "/sys/class/leds/omnia-led:user2/autonomous".
Definition led_user2_color : string := "/sys/class/leds/omnia-led:user2/color".

(** [c != ""]: [None] differs from every [str]. *)
Definition color_ne_empty (c : pycolor) : bool :=
  match c with
  | PyStr s => negb (String.eqb s "")
  | PyNone => true
  end.

(** [c + "\n"]: [None] has no [+] with a [str]. *)
Definition color_plus_newline (c : pycolor) : M string :=
  match c with
  | PyStr s => ret (s ++ newline)
  | PyNone => raise TypeError
  end.

(** [open(path, "w")] on an LED class file: the four files belong to one
    kernel driver, so they are there together, on a Turris Omnia, or not at
    all, and then [open] raises [FileNotFoundError], an [OSError]. *)
Definition open_w (omnia : bool) (path : string) : M unit :=
  if omnia then emit (FileOpenW path) else raise OSError.

(** One LED: the two [with open(..., "w")] blocks under [if color != ""]. *)
Definition set_led (omnia : bool) (autonomous color : string) (c : pycolor) : M unit :=
  if color_ne_empty c then
    open_w omnia autonomous ;;
    emit (FileWrite autonomous ("0" ++ newline)) ;;
    open_w omnia color ;;
    line <- color_plus_newline c ;;
    emit (FileWrite color line)
  else ret tt.

Definition set_turris_omnia_led (omnia : bool) (user1_color user2_color : pycolor)
  : M unit :=
  set_led omnia led_user1_autonomous led_user1_color user1_color ;;
  set_led omnia led_user2_autonomous led_user2_color user2_color.

(** [save_log]: one appended line; the time stamp is the logger's own. A
    failure inside is caught there and only printed. *)
Definition save_log (logfile : string) (logged_pm25 logged_pm10 : float) (logged_aqi : Z)
  : M unit :=
  emit (LogAppend logfile logged_pm25 logged_pm10 logged_aqi).

(** [publish_mqtt]: one call of [paho.mqtt.publish.multiple]; a failure
    inside is caught there and only printed. *)
Definition publish_mqtt (mqtt_hostname : string) (mqtt_port : Z)
    (mqtt_messages : list mqtt_message) : M unit :=
  emit (MqttPublish mqtt_hostname mqtt_port mqtt_messages).

(** The topic the four messages are published under. *)
Definition mqtt_topic (mqtt_base_topic : string) : string :=
  let topic := mqtt_base_topic in
  if endswith mqtt_base_topic "/" then rstrip "/"%char mqtt_base_topic
  else topic.

Definition mqtt_messages (mqtt_base_topic : string) (aqi : Z)
    (aqi_level : level_obj) (current_pm25 current_pm10 : float) : list mqtt_message :=
  let topic := mqtt_topic mqtt_base_topic in
  let msg_aqi :=
    {| msg_topic := topic ++ "/aqi"; msg_payload := StrInt aqi;
       msg_qos := 0; msg_retain := false |} in
  let msg_level :=
    {| msg_topic := topic ++ "/level"; msg_payload := StrLevel aqi_level;
       msg_qos := 0; msg_retain := false |} in
  let msg_current_pm25 :=
    {| msg_topic := topic ++ "/current_pm25"; msg_payload := StrFloat current_pm25;
       msg_qos := 0; msg_retain := false |} in
  let msg_current_pm10 :=
    {| msg_topic := topic ++ "/current_pm10"; msg_payload := StrFloat current_pm10;
       msg_qos := 0; msg_retain := false |} in
  [msg_aqi; msg_level; msg_current_pm25; msg_current_pm10].

(** ** Configuration *)

(** The namespace [parse_args] returns. *)
Record args : Type := {
  arg_bind : string;
  arg_port : Z;
  country : string;
  delay : Z;
  log : option string;
  measures : Z;
  mqtt_hostname : option string;
  mqtt_port : Z;
  mqtt_base_topic : string;
  omnia_leds : bool;
  sensor_path : string;
  sensor_operation_delay : Z;
  sensor_start_delay : Z;
  prometheus : bool
}.

(** The command line, one field per option, [None] when the option is not
    given; the integer and boolean options are already converted. *)
Record cmdline : Type := {
  opt_bind : option string;
  opt_port : option Z;
  opt_country : option string;
  opt_delay : option Z;
  opt_log : option string;
  opt_measures : option Z;
  opt_mqtt_hostname : option string;
  opt_mqtt_port : option Z;
  opt_mqtt_base_topic : option string;
  opt_omnia_leds : bool;
  opt_sensor : option string;
  opt_sensor_operation_delay : option Z;
  opt_sensor_start_delay : option Z;
  opt_prometheus : option bool
}.

Definition default {A} (d : A) (o : option A) : A :=
  match o with
  | Some x => x
  | None => d
  end.

(** [--country] is declared with [choices=["CN", "EU", "US"]] and
    [default="US"]: argparse exits with status 2 on any other value. *)
Definition parse_country (given : option string) : exn + string :=
  match given with
  | None => inr "US"
  | Some c => if tuple_contains country_choices c then inr c else inl (SystemExit 2)
  end.

Definition parse_args (c : cmdline) : exn + args :=
  match parse_country (opt_country c) with
  | inl e => inl e
  | inr ctry =>
      inr {| arg_bind := default "0.0.0.0" (opt_bind c);
             arg_port := default 8000 (opt_port c);
             country := ctry;
             delay := default 10 (opt_delay c);
             log := opt_log c;
             measures := default 3 (opt_measures c);
             mqtt_hostname := opt_mqtt_hostname c;
             mqtt_port := default 1883 (opt_mqtt_port c);
             mqtt_base_topic := default "sds011" (opt_mqtt_base_topic c);
             omnia_leds := opt_omnia_leds c;
             sensor_path := default "/dev/ttyUSB0" (opt_sensor c);
             sensor_operation_delay := default 1 (opt_sensor_operation_delay c);
             sensor_start_delay := default 5 (opt_sensor_start_delay c);
             prometheus := default false (opt_prometheus c) |}
  end.

(** ** Start-up and the main loop *)

Definition create_deques (n : Z) : M unit :=
  fun w =>
    (inr tt,
     {| sensor := sensor w; dequeue_pm25 := deque_new (Z.to_nat n);
        dequeue_pm10 := deque_new (Z.to_nat n); trace := trace w |}).

(** The module-level statements between [parse_args()] and [while(True)]. *)
Definition startup (a : args) : M unit :=
  n <- lift (num_measures (country a) (delay a)) ;;
  create_deques n ;;
  if prometheus a then
    emit (HttpServerStart (arg_bind a) (arg_port a)) ;;
    emit (LoggedListening (arg_bind a) (arg_port a))
  else ret tt.

Definition dequeue_pm25_append (x : float) : M unit :=
  fun w =>
    (inr tt,
     {| sensor := sensor w; dequeue_pm25 := deque_append (dequeue_pm25 w) x;
        dequeue_pm10 := dequeue_pm10 w; trace := trace w |}).

Definition dequeue_pm10_append (x : float) : M unit :=
  fun w =>
    (inr tt,
     {| sensor := sensor w; dequeue_pm25 := dequeue_pm25 w;
        dequeue_pm10 := deque_append (dequeue_pm10 w) x; trace := trace w |}).

Definition average_pm25 : M float := fun w => (deque_average (dequeue_pm25 w), w).
Definition average_pm10 : M float := fun w => (deque_average (dequeue_pm10 w), w).

(** The colors handed to [set_turris_omnia_led]. *)
Definition led_colors (aqi_level : level_obj) (country : string)
  : exn + pycolor * pycolor :=
  match level_subscript aqi_level "level" with
  | inl e => inl e
  | inr l1 =>
      let color_aqi_pm25 := get_aqi_color l1 country in
      match level_subscript aqi_level "level" with
      | inl e => inl e
      | inr l2 =>
          let color_aqi_pm10 := get_aqi_color l2 country in
          inr (color_aqi_pm25, color_aqi_pm10)
      end
  end.

(** One iteration of [while(True)]. *)
Definition cycle (lib : aqipy) (omnia : bool) (a : args) : M unit :=
  '(current_pm25, current_pm10) <-
     get_data (measures a) (sensor_start_delay a) (sensor_operation_delay a) ;;
  dequeue_pm25_append current_pm25 ;;
  dequeue_pm10_append current_pm10 ;;
  avg_pm25 <- average_pm25 ;;
  avg_pm10 <- average_pm10 ;;
  let '(aqi, aqi_data, aqi_level) := compute_aqi lib avg_pm25 avg_pm10 (country a) in
  (if omnia_leds a then
     '(color_aqi_pm25, color_aqi_pm10) <- lift (led_colors aqi_level (country a)) ;;
     set_turris_omnia_led omnia color_aqi_pm25 color_aqi_pm10
   else ret tt) ;;
  (match log a with
   | Some logfile => save_log logfile current_pm25 current_pm10 aqi
   | None => ret tt
   end) ;;
  (match mqtt_hostname a with
   | Some hostname =>
       publish_mqtt hostname (mqtt_port a)
         (mqtt_messages (mqtt_base_topic a) aqi aqi_level current_pm25 current_pm10)
   | None => ret tt
   end) ;;
  time_sleep (delay a).

(** The loop has no exit of its own: [fuel] is the number of iterations
    observed, and the result is [inr] while the loop is still running. *)
Fixpoint main_loop (lib : aqipy) (omnia : bool) (a : args) (fuel : nat) : M unit :=
  match fuel with
  | O => ret tt
  | S n => cycle lib omnia a ;; main_loop lib omnia a n
  end.

(** The whole script, from the command line on. *)
Definition program (lib : aqipy) (omnia : bool) (c : cmdline) (fuel : nat) : M unit :=
  a <- lift (parse_args c) ;;
  startup a ;;
  main_loop lib omnia a fuel.

(** ** Sample instances *)

(** A stand-in for aqipy with a constant answer, to run the program on. *)
Definition aqipy_sample : aqipy :=
  let data : aqi_data := [("pm25_24h", 46); ("pm10_24h", 19)] in
  {| aqi_cn_get_aqi := fun _ _ => (46, data);
     aqi_cn_get_aqi_with_level := fun _ _ => (46, LevelDict [("level", "excellent")]);
     caqi_eu_get_caqi := fun _ _ => (46, data);
     caqi_eu_get_caqi_with_level := fun _ _ => (46, LevelDict [("level", "low")]);
     aqi_us_get_aqi := fun _ _ => (46, data);
     aqi_us_get_aqi_with_level := fun _ _ => (46, LevelDict [("level", "Good")]) |}.

(** No option given: every default. *)
Definition cmdline_defaults : cmdline :=
  {| opt_bind := None; opt_port := None; opt_country := None; opt_delay := None;
     opt_log := None; opt_measures := None; opt_mqtt_hostname := None;
     opt_mqtt_port := None; opt_mqtt_base_topic := None; opt_omnia_leds := false;
     opt_sensor := None; opt_sensor_operation_delay := None;
     opt_sensor_start_delay := None; opt_prometheus := None |}.

Definition args_defaults : args :=
  {| arg_bind := "0.0.0.0"; arg_port := 8000; country := "US"; delay := 10;
     log := None; measures := 3; mqtt_hostname := None; mqtt_port := 1883;
     mqtt_base_topic := "sds011"; omnia_leds := false;
     sensor_path := "/dev/ttyUSB0"; sensor_operation_delay := 1;
     sensor_start_delay := 5; prometheus := false |}.

(** Every sink switched on. *)
Definition args_all_sinks : args :=
  {| arg_bind := "0.0.0.0"; arg_port := 8000; country := "US"; delay := 10;
     log := Some "aqi.csv"; measures := 3; mqtt_hostname := Some "broker";
     mqtt_port := 1883; mqtt_base_topic := "aqi/"; omnia_leds := true;
     sensor_path := "/dev/ttyUSB0"; sensor_operation_delay := 1;
     sensor_start_delay := 5; prometheus := true |}.

(** A broker and nothing else: no log, no LEDs. *)
Definition args_mqtt_only : args :=
  {| arg_bind := "0.0.0.0"; arg_port := 8000; country := "US"; delay := 10;
     log := None; measures := 3; mqtt_hostname := Some "broker";
     mqtt_port := 1883; mqtt_base_topic := "aqi/"; omnia_leds := false;
     sensor_path := "/dev/ttyUSB0"; sensor_operation_delay := 1;
     sensor_start_delay := 5; prometheus := false |}.

(** One good cycle of three sub-samples: wake, three queries, sleep. *)
Definition script_one_cycle : list (option (float * float)) :=
  [Some (0, 0); Some (10, 20); Some (12, 22);
   Some (11, 21); Some (0, 0)]%float.

(** A world after start-up with window capacity [n]. *)
Definition started (n : nat) (script : list (option (float * float))) : world :=
  {| sensor := script; dequeue_pm25 := deque_new n;
     dequeue_pm10 := deque_new n; trace := [] |}.

(** ** Vocabulary of the statements *)

(** The sum of a list of doubles in double arithmetic, taken from the left
    on top of [acc]. *)
Fixpoint sum_from (acc : float) (xs : list float) : float :=
  match xs with
  | [] => acc
  | x :: xs' => sum_from (acc + x)%float xs'
  end.

(** The arithmetic mean as double arithmetic computes it: the sum from the
    left, divided by the count. *)
Definition mean (xs : list float) : float :=
  (sum_from 0 xs / float_of_Z (Z.of_nat (List.length xs)))%float.

(** The arithmetic mean of the values the doubles stand for, in exact
    rational arithmetic. *)
Fixpoint exact_sum (xs : list float) : Q :=
  match xs with
  | [] => 0%Q
  | x :: xs' => (float_to_Q x + exact_sum xs')%Q
  end.

Definition exact_mean (xs : list float) : Q :=
  (exact_sum xs / inject_Z (Z.of_nat (List.length xs)))%Q.

(** Pushing a sequence of readings, oldest first. *)
Definition push_all (d : deque) (xs : list float) : deque :=
  fold_left deque_append xs d.

(** [needle] occurs in [hay]. *)
Definition substring_of (needle hay : string) : Prop :=
  exists before after, hay = before ++ needle ++ after.

(** The four topics under a topic prefix. *)
Definition four_topics (topic : string) : list string :=
  [topic ++ "/aqi"; topic ++ "/level"; topic ++ "/current_pm25";
   topic ++ "/current_pm10"].

(** The lines written to the file [path] among some events. *)
Definition written_to (path : string) (evs : list event) : list string :=
  flat_map (fun e =>
              match e with
              | FileWrite p content => if String.eqb p path then [content] else []
              | _ => []
              end) evs.

(** The message lists handed to the MQTT client among some events. *)
Definition published (evs : list event) : list (list mqtt_message) :=
  flat_map (fun e =>
              match e with
              | MqttPublish _ _ msgs => [msgs]
              | _ => []
              end) evs.

(** [w'] is [w] after some more events [evs] satisfying [P]. *)
Definition evolves (P : list event -> Prop) (w w' : world) : Prop :=
  exists evs, trace w' = (trace w ++ evs)%list /\ P evs.

Definition same_deques (w w' : world) : Prop :=
  dequeue_pm25 w' = dequeue_pm25 w /\ dequeue_pm10 w' = dequeue_pm10 w.

(** Whatever its outcome, running [m] relates the worlds by [R]. *)
Definition preserves {A} (R : world -> world -> Prop) (m : M A) : Prop :=
  forall w, R w (snd (m w)).


(** Properties of event lists used for the relation [evolves]. *)
Definition only_sleeps (evs : list event) : Prop := filter is_export evs = [].
Definition no_metrics (evs : list event) : Prop := filter is_metric evs = [].
Definition no_publish (evs : list event) : Prop := published evs = [].
Definition leds_agree (evs : list event) : Prop :=
  written_to led_user1_color evs = written_to led_user2_color evs.
Definition publishes_four (topic : string) (evs : list event) : Prop :=
  Forall (fun msgs => map msg_topic msgs = four_topics topic) (published evs).

(** A property of event lists that holds of no event, of a sleep, and of a
    concatenation when it holds of the parts. *)
Class EventProp (P : list event -> Prop) : Prop := {
  ep_nil : P [];
  ep_app : forall a b, P a -> P b -> P (a ++ b)%list;
  ep_sleep : forall s, P [Slept s]
}.

(** A relation between worlds that the sampler's steps cannot break: it is
    a preorder, blind to the sensor script, and admits sleeps. *)
Class Frame (R : world -> world -> Prop) : Prop := {
  fr_refl : forall w, R w w;
  fr_trans : forall w1 w2 w3, R w1 w2 -> R w2 w3 -> R w1 w3;
  fr_sensor : forall w s,
    R w {| sensor := s; dequeue_pm25 := dequeue_pm25 w;
           dequeue_pm10 := dequeue_pm10 w; trace := trace w |};
  fr_sleep : forall w s,
    R w {| sensor := sensor w; dequeue_pm25 := dequeue_pm25 w;
           dequeue_pm10 := dequeue_pm10 w; trace := (trace w ++ [Slept s])%list |}
}.

(** Nothing but sleeps happened and the windows are as they were. *)
Definition quiet (w w' : world) : Prop :=
  same_deques w w' /\ evolves only_sleeps w w'.

(** The four metric calls at the end of [get_data]. *)
Definition metric_events (pm : float * float) : list event :=
  [GaugeSet PM25 (fst pm); GaugeSet PM10 (snd pm);
   HistObserve PM25_HIST (fst pm); HistObserve PM10_HIST (snd pm - fst pm)%float].

(** A command line asking for a country outside the choices. *)
Definition cmdline_FR : cmdline :=
  {| opt_bind := None; opt_port := None; opt_country := Some "FR";
     opt_delay := None; opt_log := None; opt_measures := None;
     opt_mqtt_hostname := None; opt_mqtt_port := None;
     opt_mqtt_base_topic := None; opt_omnia_leds := false; opt_sensor := None;
     opt_sensor_operation_delay := None; opt_sensor_start_delay := None;
     opt_prometheus := None |}.

(** ** Functions outside the main loop *)

(** [c.lower()] on one ASCII character: "A".."Z" move to "a".."z", every
    other character stays. *)
Definition ascii_lower (c : ascii) : ascii :=
  let n := nat_of_ascii c in
  if ((65 <=? n) && (n <=? 90))%nat then ascii_of_nat (n + 32) else c.

(** [s.lower()] on ASCII text. *)
Fixpoint str_lower (s : string) : string :=
  match s with
  | EmptyString => EmptyString
  | String c s' => String (ascii_lower c) (str_lower s')
  end.

(** [str_to_bool]: the argparse converter of [--debug] and [--prometheus].
    Membership in a set literal is equality with one of its elements. *)
Definition str_to_bool (value : string) : exn + bool :=
  if tuple_contains ["false"; "f"; "0"; "no"; "n"] (str_lower value) then inr false
  else if tuple_contains ["true"; "t"; "1"; "yes"; "y"] (str_lower value) then inr true
  else inl ValueError.

Definition gauge_eqb (g h : gauge) : bool :=
  match g, h with
  | PM25, PM25 | PM10, PM10 => true
  | _, _ => false
  end.

(** The value a gauge holds after some calls: that of the last [set], and
    0.0 for a gauge never set. *)
Definition gauge_value (g : gauge) (evs : list event) : float :=
  fold_left (fun v e =>
               match e with
               | GaugeSet h x => if gauge_eqb g h then x else v
               | _ => v
               end) evs 0%float.

(** [collect_all_data]: the dictionary of the two gauges' current values. *)
Definition collect_all_data : M (list (string * float)) :=
  fun w =>
    let sensor_data := [] in
    let sensor_data := (sensor_data ++ [("pm25", gauge_value PM25 (trace w))])%list in
    let sensor_data := (sensor_data ++ [("pm10", gauge_value PM10 (trace w))])%list in
    (inr sensor_data, w).

(** ** More vocabulary *)

(** The lines handed to [save_log] among some events. *)
Definition logged (evs : list event) : list (string * float * float * Z) :=
  flat_map (fun e =>
              match e with
              | LogAppend f p25 p10 aqi => [(f, p25, p10, aqi)]
              | _ => []
              end) evs.

(** The seconds slept among some events. *)
Definition slept (evs : list event) : Z :=
  fold_right (fun e t =>
                match e with
                | Slept s => s + t
                | _ => t
                end) 0 evs.

Definition is_file (e : event) : bool :=
  match e with
  | FileOpenW _ | FileWrite _ _ => true
  | _ => false
  end.

(** Only LED files were touched. *)
Definition only_files (evs : list event) : Prop := forallb is_file evs = true.

(** What the log and MQTT sinks add to the trace for one reading. *)
Definition log_events (a : args) (pm : float * float) (aqi : Z) : list event :=
  match log a with
  | Some logfile => [LogAppend logfile (fst pm) (snd pm) aqi]
  | None => []
  end.

Definition mqtt_events (a : args) (pm : float * float) (aqi : Z) (lvl : level_obj)
  : list event :=
  match mqtt_hostname a with
  | Some hostname =>
      [MqttPublish hostname (mqtt_port a)
         (mqtt_messages (mqtt_base_topic a) aqi lvl (fst pm) (snd pm))]
  | None => []
  end.

(** The sleeps of a measurement with [k] sub-samples. *)
Definition sampler_sleeps (k sd od : Z) : list event :=
  (Slept sd :: repeat (Slept od) (Z.to_nat k) ++ [Slept od])%list.

(** Between [w] and [w'] the driver was called at most [n] times. *)
Definition driver_calls (n : nat) (w w' : world) : Prop :=
  exists used, sensor w = (used ++ sensor w')%list /\ (List.length used <= n)%nat.

(** Whatever the world, [m] makes at most [n] driver calls. *)
Definition calls_at_most {A} (n : nat) (m : M A) : Prop :=
  forall w, driver_calls n w (snd (m w)).

(** Every exception [m] can end with satisfies [E]. *)
Definition raises_only {A} (E : exn -> Prop) (m : M A) : Prop :=
  forall w e w', m w = (inl e, w') -> E e.

(** What one good measurement takes from the sensor: the reply to the
    wake-up, the sub-samples, the reply to the sleep command. *)
Definition batch : Type := (float * float) * list (float * float) * (float * float).

Definition batch_samples (b : batch) : list (float * float) := snd (fst b).

Definition batch_script (b : batch) : list (option (float * float)) :=
  (Some (fst (fst b)) :: map Some (batch_samples b) ++ [Some (snd b)])%list.

(** The reading the sampler makes of a batch. *)
Definition batch_reading (b : batch) : float * float :=
  (py_round1 (mean (map fst (batch_samples b))),
   py_round1 (mean (map snd (batch_samples b)))).

(** The LED sink cannot raise: it is off, or the machine has the LED files
    and aqipy's level always has a ["level"] entry for which the color
    lookup returns a [str]. *)
Definition leds_safe (lib : aqipy) (omnia : bool) (a : args) : Prop :=
  omnia_leds a = false \/
  (omnia = true /\
   forall pm25 pm10,
     exists l s,
       level_subscript (snd (compute_aqi lib pm25 pm10 (country a))) "level" = inr l /\
       get_aqi_color l (country a) = PyStr s).

(** What the calculator makes of the window averages once the reading [pm]
    has been pushed into the windows of [w]. *)
Definition cycle_aqi (lib : aqipy) (a : args) (w : world) (pm : float * float)
  : Z * aqi_data * level_obj :=
  compute_aqi lib
    (mean (items (deque_append (dequeue_pm25 w) (fst pm))))
    (mean (items (deque_append (dequeue_pm10 w) (snd pm))))
    (country a).

(** The sample counts from -10000 to -1. *)
Definition negative_counts : list Z :=
  map (fun i => - Z.of_nat (S i)) (seq 0 (Z.to_nat 10000)).

(** [x] is the zero -0.0. *)
Definition is_negative_zero (x : float) : bool :=
  match Prim2SF x with
  | S754_zero true => true
  | _ => false
  end.

(** Both windows have the same capacity and hold the same number of
    readings, no more than the capacity. *)
Definition windows_ok (w : world) : Prop :=
  maxlen (dequeue_pm25 w) = maxlen (dequeue_pm10 w) /\
  List.length (items (dequeue_pm25 w)) = List.length (items (dequeue_pm10 w)) /\
  (List.length (items (dequeue_pm25 w)) <= maxlen (dequeue_pm25 w))%nat.

(** The seconds one completed cycle spends sleeping. *)
Definition cycle_sleep_seconds (a : args) : Z :=
  sensor_start_delay a
  + (Z.of_nat (Z.to_nat (measures a)) + 1) * sensor_operation_delay a
  + delay a.

(** How many sinks of a kind are configured, per cycle. *)
Definition per_cycle {A} (o : option A) (n : nat) : nat :=
  match o with
  | Some _ => n
  | None => O
  end.

(** * Properties *)

(** ** Strings *)

Lemma prefix_spec (p s : string) :
  String.prefix p s = true <-> exists rest, s = p ++ rest.
Proof.
  revert s; induction p as [|a p IH]; intros s.
  - split; [intros _; now exists s | intros _; now destruct s].
  - destruct s as [|b s]; simpl.
    + split; [discriminate | intros [r Hr]; discriminate].
    + destruct (ascii_dec a b) as [->|Hab].
      * rewrite IH. split; intros [r Hr]; exists r; congruence.
      * split; [discriminate | intros [r Hr]; congruence].
Qed.

Lemma str_contains_unfold (hay needle : string) :
  str_contains hay needle =
  String.prefix needle hay
  || match hay with
     | EmptyString => false
     | String _ hay' => str_contains hay' needle
     end.
Proof. destruct hay; reflexivity. Qed.

Lemma str_contains_spec (hay needle : string) :
  str_contains hay needle = true <-> substring_of needle hay.
Proof.
  unfold substring_of.
  induction hay as [|a hay IH];
    rewrite str_contains_unfold, orb_true_iff, prefix_spec.
  - split.
    + intros [[r Hr]|H]; [|discriminate]. now exists "", r.
    + intros [[|b before] [after H]]; simpl in H; [left; now exists after | discriminate].
  - rewrite IH. split.
    + intros [[r Hr]|[before [after H]]].
      * now exists "", r.
      * exists (String a before), after. simpl. now rewrite H.
    + intros [[|b before] [after H]]; simpl in H.
      * left. now exists after.
      * right. exists before, after. congruence.
Qed.

Lemma substring_of_EU (c : string) :
  substring_of c "EU" <-> c = "" \/ c = "E" \/ c = "U" \/ c = "EU".
Proof.
  split.
  - intros [before [after H]].
    destruct before as [|x [|y [|z before]]]; simpl in H.
    + destruct c as [|a [|b [|d c]]]; simpl in H; auto.
      * right; left. congruence.
      * right; right; right. congruence.
      * discriminate.
    + destruct c as [|a [|b c]]; simpl in H; auto.
      * right; right; left. congruence.
      * discriminate.
    + destruct c as [|a c]; simpl in H; auto. discriminate.
    + discriminate.
  - intros [->|[->|[->| ->]]].
    + now exists "", "EU".
    + now exists "", "U".
    + now exists "E", "".
    + now exists "", "".
Qed.

Lemma tuple_contains_spec (t : list string) (x : string) :
  tuple_contains t x = true <-> In x t.
Proof.
  unfold tuple_contains. rewrite existsb_exists. split.
  - intros [y [Hy E]]. apply String.eqb_eq in E. now subst.
  - intros H. exists x. split; [assumption | apply String.eqb_refl].
Qed.

Lemma tuple_contains_false (t : list string) (x : string) :
  tuple_contains t x = false <-> ~ In x t.
Proof.
  rewrite <- tuple_contains_spec. now destruct (tuple_contains t x).
Qed.

Lemma endswith_unfold (s suffix : string) :
  endswith s suffix =
  String.eqb s suffix
  || match s with
     | EmptyString => false
     | String _ s' => endswith s' suffix
     end.
Proof. destruct s; reflexivity. Qed.

Lemma endswith_spec (s suffix : string) :
  endswith s suffix = true <-> exists before, s = before ++ suffix.
Proof.
  induction s as [|a s IH]; rewrite endswith_unfold, orb_true_iff, String.eqb_eq.
  - split.
    + intros [<-|H]; [now exists "" | discriminate].
    + intros [[|b before] H]; simpl in H; [now left | discriminate].
  - rewrite IH. split.
    + intros [<-|[before ->]]; [now exists "" | now exists (String a before)].
    + intros [[|b before] H]; simpl in H; [now left|].
      right. exists before. congruence.
Qed.


(** What [rstrip] leaves does not end in the character. *)
Lemma rstrip_no_trailing (c : ascii) (s : string) :
  endswith (rstrip c s) (String c "") = false.
Proof.
  induction s as [|a s IH]; simpl; [reflexivity|].
  destruct (rstrip c s) as [|b r] eqn:E.
  - destruct (Ascii.eqb a c) eqn:Eac; [reflexivity|].
    simpl. now rewrite Eac.
  - rewrite endswith_unfold, IH, orb_false_r. simpl.
    destruct (Ascii.eqb a c); reflexivity.
Qed.

(** A string without the trailing character is left as it is. *)
Lemma rstrip_fixed (c : ascii) (s : string) :
  endswith s (String c "") = false -> rstrip c s = s.
Proof.
  induction s as [|a s IH]; [reflexivity|].
  rewrite endswith_unfold, orb_false_iff. intros [H1 H2].
  simpl. rewrite (IH H2).
  destruct s as [|b s]; [|reflexivity].
  simpl in H1. destruct (Ascii.eqb a c); [discriminate | reflexivity].
Qed.

(** ** AQI policy table *)

Lemma get_aqi_interval_supported (c : string) :
  In c country_choices -> get_aqi_interval c = averaging_seconds c.
Proof.
  intros [<-|[<-|[<-|[]]]]; reflexivity.
Qed.

(** C10: the averaging-interval lookup tests "EU" by substring, so "E", "U"
    and the empty string, none of them a supported country code, get 3600
    like "EU"; the sentinel -1 is returned exactly for the inputs other than
    "CN" and "US" that are not substrings of "EU". *)
Theorem get_aqi_interval_EU_by_substring :
  get_aqi_interval "E" = 3600 /\
  get_aqi_interval "U" = 3600 /\
  get_aqi_interval "" = 3600 /\
  get_aqi_interval "EU" = 3600 /\
  (~ In "E" country_choices /\ ~ In "U" country_choices /\ ~ In "" country_choices) /\
  (forall c, get_aqi_interval c = 3600 <->
             c <> "CN" /\ c <> "US" /\ substring_of c "EU") /\
  (forall c, get_aqi_interval c = -1 <->
             c <> "CN" /\ c <> "US" /\ ~ substring_of c "EU").
Proof.
  repeat split; try reflexivity;
    try (intros [H|[H|[H|[]]]]; discriminate H).
  - intros ->. discriminate H.
  - intros ->. discriminate H.
  - unfold get_aqi_interval in H.
    destruct (tuple_contains ["CN"; "US"] c); [discriminate|].
    destruct (str_contains "EU" c) eqn:E; [|discriminate].
    now apply str_contains_spec.
  - intros (H1 & H2 & H3). unfold get_aqi_interval.
    destruct (tuple_contains ["CN"; "US"] c) eqn:E.
    + apply tuple_contains_spec in E. destruct E as [E|[E|[]]]; congruence.
    + apply str_contains_spec in H3. now rewrite H3.
  - intros ->. discriminate H.
  - intros ->. discriminate H.
  - unfold get_aqi_interval in H.
    destruct (tuple_contains ["CN"; "US"] c); [discriminate|].
    destruct (str_contains "EU" c) eqn:E; [discriminate|].
    rewrite <- str_contains_spec. congruence.
  - intros (H1 & H2 & H3). unfold get_aqi_interval.
    destruct (tuple_contains ["CN"; "US"] c) eqn:E.
    + apply tuple_contains_spec in E. destruct E as [E|[E|[]]]; congruence.
    + rewrite <- str_contains_spec in H3.
      now destruct (str_contains "EU" c).
Qed.

(** C2: for a supported country and a sample delay of at least one second,
    the capacity computed at start-up is max(1, averaging_seconds // delay),
    with 86400 seconds for CN and US and 3600 for EU; it is at least 1, and
    exactly 1 when the delay exceeds the averaging period; start-up succeeds
    and creates both deques with that capacity. *)
Theorem window_capacity (a : args) (w : world) :
  In (country a) country_choices ->
  1 <= delay a ->
  averaging_seconds "CN" = 86400 /\
  averaging_seconds "US" = 86400 /\
  averaging_seconds "EU" = 3600 /\
  get_aqi_interval (country a) = averaging_seconds (country a) /\
  num_measures (country a) (delay a)
  = inr (Z.max 1 (averaging_seconds (country a) / delay a)) /\
  1 <= Z.max 1 (averaging_seconds (country a) / delay a) /\
  (averaging_seconds (country a) < delay a ->
   Z.max 1 (averaging_seconds (country a) / delay a) = 1) /\
  fst (startup a w) = inr tt /\
  maxlen (dequeue_pm25 (snd (startup a w)))
  = Z.to_nat (Z.max 1 (averaging_seconds (country a) / delay a)) /\
  maxlen (dequeue_pm10 (snd (startup a w)))
  = Z.to_nat (Z.max 1 (averaging_seconds (country a) / delay a)).
Proof.
  intros Hc Hd.
  pose proof (get_aqi_interval_supported _ Hc) as Hi.
  assert (Hn : num_measures (country a) (delay a)
               = inr (Z.max 1 (averaging_seconds (country a) / delay a))).
  { unfold num_measures. rewrite Hi.
    destruct (Z.eqb_spec (delay a) 0) as [E|_]; [lia|].
    f_equal.
    destruct (Z.leb_spec (averaging_seconds (country a) / delay a) 0); lia. }
  assert (Hpos : 0 <= averaging_seconds (country a)).
  { destruct Hc as [<-|[<-|[<-|[]]]]; cbv; discriminate. }
  repeat split; try assumption; try reflexivity.
  - lia.
  - intros Hlt. rewrite Z.div_small by lia. reflexivity.
  - unfold startup, bind, lift. rewrite Hn. simpl.
    destruct (prometheus a); reflexivity.
  - unfold startup, bind, lift. rewrite Hn. simpl.
    destruct (prometheus a); reflexivity.
  - unfold startup, bind, lift. rewrite Hn. simpl.
    destruct (prometheus a); reflexivity.
Qed.

Lemma window_capacity_witness :
  num_measures "EU" 7200 = inr 1 /\
  maxlen (dequeue_pm25 (snd (startup args_defaults (boot [])))) = Z.to_nat 8640.
Proof.
  split.
  - pose (a := {| arg_bind := "0.0.0.0"; arg_port := 8000; country := "EU";
                  delay := 7200; log := None; measures := 3;
                  mqtt_hostname := None; mqtt_port := 1883;
                  mqtt_base_topic := "sds011"; omnia_leds := false;
                  sensor_path := "/dev/ttyUSB0"; sensor_operation_delay := 1;
                  sensor_start_delay := 5; prometheus := false |}).
    assert (Hc : In (country a) country_choices) by (simpl; auto).
    assert (Hd : 1 <= delay a) by (simpl; lia).
    exact (proj1 (proj2 (proj2 (proj2 (proj2
             (window_capacity a (boot []) Hc Hd)))))).
  - assert (Hc : In (country args_defaults) country_choices) by (simpl; auto).
    assert (Hd : 1 <= delay args_defaults) by (simpl; lia).
    exact (proj1 (proj2 (proj2 (proj2 (proj2 (proj2 (proj2 (proj2 (proj2
             (window_capacity args_defaults (boot []) Hc Hd)))))))))).
Defined.

(** ** Color lookup *)

Lemma get_aqi_color_unsupported (l c : string) :
  ~ In c country_choices -> get_aqi_color l c = PyStr "".
Proof.
  intros H. unfold get_aqi_color.
  destruct (String.eqb_spec c "CN") as [->|_]; [exfalso; apply H; simpl; auto|].
  destruct (String.eqb_spec c "EU") as [->|_]; [exfalso; apply H; simpl; auto|].
  destruct (String.eqb_spec c "US") as [->|_]; [exfalso; apply H; simpl; auto|].
  reflexivity.
Qed.

(** A supported country with a level outside its table: the function falls
    off its end. *)
Lemma get_aqi_color_unmapped (l c : string) :
  In c country_choices -> ~ In l (mapped_levels c) -> get_aqi_color l c = PyNone.
Proof.
  intros [<-|[<-|[<-|[]]]] H; simpl in H; unfold get_aqi_color; simpl;
    repeat match goal with
      | |- context [String.eqb l ?s] =>
          destruct (String.eqb_spec l s) as [->|_];
          [exfalso; apply H; tauto|]
      end; reflexivity.
Qed.

Lemma get_aqi_color_mapped (l c : string) :
  In l (mapped_levels c) -> exists s, get_aqi_color l c = PyStr s /\ s <> "".
Proof.
  unfold mapped_levels, get_aqi_color.
  destruct (String.eqb c "CN");
    [|destruct (String.eqb c "EU"); [|destruct (String.eqb c "US")]];
    simpl; intros H;
    repeat (destruct H as [<-|H]; [eexists; split; [reflexivity|discriminate]|]);
    destruct H.
Qed.

(** C5: at the level name "Unknown" for the supported country "US" the
    color lookup returns None, not the empty string; the same happens for
    "CN" and "EU", while an unsupported country does get the empty string. *)
Theorem get_aqi_color_unmapped_level_is_None :
  get_aqi_color "Unknown" "US" = PyNone /\
  get_aqi_color "Unknown" "CN" = PyNone /\
  get_aqi_color "Unknown" "EU" = PyNone /\
  get_aqi_color "Unknown" "FR" = PyStr "".
Proof. repeat split. Qed.

(** ** Rolling window *)

Lemma tl_skipn {A} (k : nat) (l : list A) : tl (skipn k l) = skipn (S k) l.
Proof.
  revert l; induction k as [|k IH]; intros [|a l]; try reflexivity.
  exact (IH l).
Qed.

Lemma lastn_length {A} (n : nat) (l : list A) :
  List.length (lastn n l) = Nat.min n (List.length l).
Proof. unfold lastn. rewrite length_skipn. lia. Qed.


(** One [append] on a window holding the last [n] of [ys]. *)
Lemma lastn_snoc (n : nat) (ys : list float) (x : float) :
  (if (n <? List.length (lastn n ys ++ [x]))%nat
   then tl (lastn n ys ++ [x]) else lastn n ys ++ [x])%list
  = lastn n (ys ++ [x]).
Proof.
  rewrite length_app, lastn_length. simpl.
  unfold lastn. rewrite length_app. simpl.
  destruct (Nat.ltb_spec n (Nat.min n (List.length ys) + 1)) as [H|H].
  - replace (List.length ys + 1 - n)%nat with (S (List.length ys - n)) by lia.
    rewrite <- tl_skipn, skipn_app.
    replace (List.length ys - n - List.length ys)%nat with O by lia.
    reflexivity.
  - replace (List.length ys + 1 - n)%nat with O by lia.
    replace (List.length ys - n)%nat with O by lia.
    reflexivity.
Qed.

Lemma push_all_snoc (d : deque) (xs : list float) (x : float) :
  push_all d (xs ++ [x]) = deque_append (push_all d xs) x.
Proof. unfold push_all. now rewrite fold_left_app. Qed.

Lemma push_all_maxlen (d : deque) (xs : list float) :
  maxlen (push_all d xs) = maxlen d.
Proof.
  induction xs as [|x xs IH] using rev_ind; [reflexivity|].
  now rewrite push_all_snoc.
Qed.

(** The window holds the most recent pushes, at most [n] of them. *)
Lemma push_all_items (n : nat) (xs : list float) :
  items (push_all (deque_new n) xs) = lastn n xs.
Proof.
  induction xs as [|x xs IH] using rev_ind.
  - reflexivity.
  - rewrite push_all_snoc. unfold deque_append. simpl.
    rewrite push_all_maxlen, IH. simpl. apply lastn_snoc.
Qed.

Lemma py_sum_from (xs : list float) (acc : float) :
  fold_left PrimFloat.add xs acc = sum_from acc xs.
Proof. revert acc; induction xs as [|x xs IH]; intros acc; [reflexivity | apply IH]. Qed.

Lemma deque_average_mean (d : deque) :
  items d <> [] -> deque_average d = inr (mean (items d)).
Proof.
  unfold deque_average, mean, py_sum. rewrite py_sum_from.
  destruct (items d); [congruence | reflexivity].
Qed.

Lemma deque_append_length (d : deque) (x : float) :
  List.length (items (deque_append d x))
  = if (maxlen d <? List.length (items d) + 1)%nat
    then List.length (items d) else (List.length (items d) + 1)%nat.
Proof.
  unfold deque_append. simpl. rewrite length_app. simpl.
  destruct (maxlen d <? List.length (items d) + 1)%nat.
  - destruct (items d); simpl; [reflexivity|]. rewrite length_app. simpl. lia.
  - rewrite length_app. reflexivity.
Qed.

Lemma deque_append_nonempty (d : deque) (x : float) :
  (1 <= maxlen d)%nat -> items (deque_append d x) <> [].
Proof.
  intros Hm E. apply (f_equal (@List.length float)) in E.
  rewrite deque_append_length in E. simpl in E.
  destruct (Nat.ltb_spec (maxlen d) (List.length (items d) + 1)); lia.
Qed.

Lemma deque_average_append (d : deque) (x : float) :
  (1 <= maxlen d)%nat ->
  deque_average (deque_append d x) = inr (mean (items (deque_append d x))).
Proof. intros Hm. now apply deque_average_mean, deque_append_nonempty. Qed.




(** ** Reasoning about runs *)

Lemma preserves_run {A} (R : world -> world -> Prop) (m : M A) w r w' :
  preserves R m -> m w = (r, w') -> R w w'.
Proof. intros H E. specialize (H w). now rewrite E in H. Qed.

Lemma bind_run {A B} (m : M A) (k : A -> M B) (w : world) :
  bind m k w
  = match m w with
    | (inl e, w') => (inl e, w')
    | (inr a, w') => k a w'
    end.
Proof. reflexivity. Qed.

Lemma bind_inv {A B} (m : M A) (k : A -> M B) w r w' :
  bind m k w = (r, w') ->
  (exists e, m w = (inl e, w') /\ r = inl e) \/
  (exists a w1, m w = (inr a, w1) /\ k a w1 = (r, w')).
Proof.
  unfold bind. destruct (m w) as [[e|a] w1]; intros H.
  - left. exists e. split; congruence.
  - right. now exists a, w1.
Qed.

Lemma bind_inr {A B} (m : M A) (k : A -> M B) w b w' :
  bind m k w = (inr b, w') ->
  exists a w1, m w = (inr a, w1) /\ k a w1 = (inr b, w').
Proof.
  intros H. apply bind_inv in H. destruct H as [(e & _ & H)|H]; [discriminate | exact H].
Qed.

Section PreservesGeneric.
Context (R : world -> world -> Prop) `{FR : Frame R}.

Lemma preserves_ret {A} (a : A) : preserves R (ret a).
Proof. intros w. apply fr_refl. Qed.

Lemma preserves_raise {A} (e : exn) : preserves R (@raise A e).
Proof. intros w. apply fr_refl. Qed.

Lemma preserves_lift {A} (r : exn + A) : preserves R (lift r).
Proof. intros w. apply fr_refl. Qed.

Lemma preserves_bind {A B} (m : M A) (k : A -> M B) :
  preserves R m -> (forall a, preserves R (k a)) -> preserves R (bind m k).
Proof.
  intros Hm Hk w. unfold bind.
  specialize (Hm w). destruct (m w) as [[e|a] w1]; simpl in *.
  - exact Hm.
  - eapply fr_trans; [exact Hm | apply Hk].
Qed.

Lemma preserves_sensor_call : preserves R sensor_call.
Proof.
  intros w. unfold sensor_call.
  destruct (sensor w) as [|[r|] rest]; simpl;
    [apply fr_refl | apply fr_sensor | apply fr_sensor].
Qed.

Lemma preserves_sensor_sleep (b : bool) : preserves R (sensor_sleep b).
Proof.
  apply preserves_bind; [apply preserves_sensor_call | intros; apply preserves_ret].
Qed.

Lemma preserves_time_sleep (s : Z) : preserves R (time_sleep s).
Proof.
  intros w. unfold time_sleep.
  destruct (s <? 0); simpl; [apply fr_refl | apply fr_sleep].
Qed.

Lemma preserves_float_div (x : float) (n : Z) : preserves R (float_div x n).
Proof.
  intros w. unfold float_div. destruct (n =? 0); apply fr_refl.
Qed.

Lemma preserves_query_loop (n : nat) (d : Z) (acc : float * float) :
  preserves R (query_loop n d acc).
Proof.
  revert acc; induction n as [|n IH]; intros acc; simpl.
  - apply preserves_ret.
  - apply preserves_bind; [apply preserves_sensor_call | intros x].
    apply preserves_bind; [apply preserves_time_sleep | intros _; apply IH].
Qed.
End PreservesGeneric.

#[export] Instance same_deques_frame : Frame same_deques.
Proof.
  split; unfold same_deques; simpl; try tauto.
  intros w1 w2 w3 [H1 H2] [H3 H4]. split; congruence.
Qed.

#[export] Instance evolves_frame (P : list event -> Prop) `{EP : EventProp P} :
  Frame (evolves P).
Proof.
  split; unfold evolves; simpl.
  - intros w. exists []. split; [now rewrite app_nil_r | apply ep_nil].
  - intros w1 w2 w3 (a & Ha & Pa) (b & Hb & Pb).
    exists (a ++ b)%list. split; [|now apply ep_app].
    now rewrite Hb, Ha, app_assoc.
  - intros w s. exists []. split; [now rewrite app_nil_r | apply ep_nil].
  - intros w s. exists [Slept s]. split; [reflexivity | apply ep_sleep].
Qed.

#[export] Instance and_frame (R1 R2 : world -> world -> Prop)
  `{F1 : Frame R1} `{F2 : Frame R2} : Frame (fun w w' => R1 w w' /\ R2 w w').
Proof.
  split.
  - intros w. split; apply fr_refl.
  - intros w1 w2 w3 [H1 H2] [H3 H4]. split; eapply fr_trans; eassumption.
  - intros w s. split; apply fr_sensor.
  - intros w s. split; apply fr_sleep.
Qed.

Lemma flat_map_nil_app {A B} (f : A -> list B) (a b : list A) :
  flat_map f a = [] -> flat_map f b = [] -> flat_map f (a ++ b) = [].
Proof. intros Ha Hb. now rewrite flat_map_app, Ha, Hb. Qed.

#[export] Instance only_sleeps_prop : EventProp only_sleeps.
Proof.
  split; unfold only_sleeps; try reflexivity.
  intros a b Ha Hb. now rewrite filter_app, Ha, Hb.
Qed.

#[export] Instance no_metrics_prop : EventProp no_metrics.
Proof.
  split; unfold no_metrics; try reflexivity.
  intros a b Ha Hb. now rewrite filter_app, Ha, Hb.
Qed.

#[export] Instance no_publish_prop : EventProp no_publish.
Proof.
  split; unfold no_publish, published; try reflexivity.
  intros a b. apply flat_map_nil_app.
Qed.

#[export] Instance leds_agree_prop : EventProp leds_agree.
Proof.
  split; unfold leds_agree, written_to; try reflexivity.
  intros a b Ha Hb. now rewrite !flat_map_app, Ha, Hb.
Qed.

#[export] Instance publishes_four_prop (topic : string) :
  EventProp (publishes_four topic).
Proof.
  split; unfold publishes_four, published; simpl; try constructor.
  intros a b Ha Hb. rewrite flat_map_app. apply Forall_app. now split.
Qed.

#[export] Instance quiet_frame : Frame quiet.
Proof. unfold quiet. apply and_frame; typeclasses eauto. Qed.

(** ** Measurement sampler *)

Ltac quiet_step E lem :=
  apply (preserves_run quiet _ _ _ _ lem) in E.

Ltac quiet_chain :=
  repeat match goal with
    | H1 : quiet ?a ?b, H2 : quiet ?b ?c |- _ =>
        pose proof (fr_trans a b c H1 H2); clear H1 H2
    end.

(** Up to the metric calls the sampler only talks to the sensor and sleeps;
    it fails before any of them or makes all four. *)
Lemma get_data_spec (m sd od : Z) (w : world) :
  match get_data m sd od w with
  | (inl _, w') => quiet w w'
  | (inr pm, w') =>
      exists w1, quiet w w1 /\
        w' = {| sensor := sensor w1; dequeue_pm25 := dequeue_pm25 w1;
                dequeue_pm10 := dequeue_pm10 w1;
                trace := (trace w1 ++ metric_events pm)%list |}
  end.
Proof.
  unfold get_data. cbv beta delta [bind].
  destruct (sensor_sleep false w) as [[e|[]] w1] eqn:E1;
    quiet_step E1 (preserves_sensor_sleep quiet false); [exact E1|].
  destruct (time_sleep sd w1) as [[e|[]] w2] eqn:E2;
    quiet_step E2 (preserves_time_sleep quiet sd); quiet_chain; [assumption|].
  destruct (query_loop (Z.to_nat m) od (0, 0)%float w2) as [[e|[s25 s10]] w3] eqn:E3;
    quiet_step E3 (preserves_query_loop quiet (Z.to_nat m) od (0, 0)%float);
    quiet_chain; [assumption|].
  destruct (float_div s25 m w3) as [[e|q25] w4] eqn:E4;
    quiet_step E4 (preserves_float_div quiet s25 m); quiet_chain; [assumption|].
  destruct (float_div s10 m w4) as [[e|q10] w5] eqn:E5;
    quiet_step E5 (preserves_float_div quiet s10 m); quiet_chain; [assumption|].
  destruct (sensor_sleep true w5) as [[e|[]] w6] eqn:E6;
    quiet_step E6 (preserves_sensor_sleep quiet true); quiet_chain; [assumption|].
  destruct (time_sleep od w6) as [[e|[]] w7] eqn:E7;
    quiet_step E7 (preserves_time_sleep quiet od); quiet_chain; [assumption|].
  simpl. exists w7. split; [assumption|].
  unfold metric_events. simpl. rewrite <- !app_assoc. reflexivity.
Qed.

Lemma quiet_exports (w w' : world) : quiet w w' -> exports w' = exports w.
Proof.
  intros [_ (evs & Ht & Hs)]. unfold exports.
  rewrite Ht, filter_app, Hs. apply app_nil_r.
Qed.

Lemma quiet_metrics (w w' : world) : quiet w w' -> metrics w' = metrics w.
Proof.
  intros [_ (evs & Ht & Hs)]. unfold metrics.
  rewrite Ht, filter_app.
  replace (filter is_metric evs) with (@nil event); [apply app_nil_r|].
  unfold only_sleeps in Hs. clear Ht.
  induction evs as [|e evs IH]; [reflexivity|].
  simpl in Hs. destruct e; simpl in *; try discriminate. now apply IH.
Qed.

Lemma round_half_even_close (q : Q) :
  (-(1 # 2) <= q - inject_Z (round_half_even q) <= 1 # 2)%Q.
Proof.
  unfold round_half_even.
  pose proof (Qfloor_le q) as Hlo.
  pose proof (Qlt_floor q) as Hhi.
  rewrite inject_Z_plus in Hhi. change (inject_Z 1) with 1%Q in Hhi.
  destruct (Qcompare_spec (q - inject_Z (Qfloor q)) (1 # 2)) as [E|L|G].
  - destruct (Z.even (Qfloor q)).
    + lra.
    + rewrite inject_Z_plus. change (inject_Z 1) with 1%Q. lra.
  - lra.
  - rewrite inject_Z_plus. change (inject_Z 1) with 1%Q. lra.
Qed.

(** [round(x, 1)] of a finite double below 2 ^ 49 in magnitude is, up to the
    sign, the double nearest to n / 10 for an integer n within one half of
    ten times the magnitude of [x]; every other double is returned as it
    is. *)
Lemma py_round1_one_decimal (x : float) :
  match Prim2SF x with
  | S754_finite s m e =>
      if e <? -3 then
        exists n : Z,
          py_round1 x = (if s then - (float_of_Z n / 10) else float_of_Z n / 10)%float /\
          (-(1 # 2) <= magnitude m e * (10 # 1) - inject_Z n <= 1 # 2)%Q
      else py_round1 x = x
  | _ => py_round1 x = x
  end.
Proof.
  unfold py_round1. destruct (Prim2SF x) as [b|b| |s m e]; try reflexivity.
  destruct (Z.ltb_spec e (-3)) as [He|He].
  - destruct (Z.leb_spec (-3) e) as [H|_]; [lia|].
    eexists. split; [reflexivity | apply round_half_even_close].
  - destruct (Z.leb_spec (-3) e) as [_|H]; [reflexivity | lia].
Qed.

Lemma query_loop_ok (xs : list (float * float)) (od : Z) (acc : float * float) (w : world)
    (rest : list (option (float * float))) :
  0 <= od ->
  sensor w = (map Some xs ++ rest)%list ->
  exists w',
    query_loop (List.length xs) od acc w
    = (inr (sum_from (fst acc) (map fst xs),
            sum_from (snd acc) (map snd xs)), w')
    /\ sensor w' = rest.
Proof.
  intros Hod. revert acc w.
  induction xs as [|x xs IH]; intros acc w Hs; simpl in *.
  - exists w. split; [now destruct acc | assumption].
  - unfold bind at 1. unfold sensor_query, sensor_call. rewrite Hs.
    unfold bind at 1. unfold time_sleep.
    destruct (Z.ltb_spec od 0) as [H|_]; [lia|].
    unfold emit. apply IH. reflexivity.
Qed.

Lemma query_loop_run (xs : list (float * float)) (od : Z) (acc : float * float) (w : world)
    (rest : list (option (float * float))) :
  0 <= od ->
  sensor w = (map Some xs ++ rest)%list ->
  query_loop (List.length xs) od acc w
  = (inr (sum_from (fst acc) (map fst xs),
          sum_from (snd acc) (map snd xs)),
     {| sensor := rest; dequeue_pm25 := dequeue_pm25 w;
        dequeue_pm10 := dequeue_pm10 w;
        trace := (trace w ++ repeat (Slept od) (List.length xs))%list |}).
Proof.
  intros Hod. revert acc w.
  induction xs as [|x xs IH]; intros acc w Hs; simpl in *.
  - unfold ret. rewrite app_nil_r, <- Hs. now destruct acc, w.
  - rewrite bind_run. unfold sensor_query, sensor_call. rewrite Hs.
    rewrite bind_run. unfold time_sleep.
    destruct (Z.ltb_spec od 0) as [H|_]; [lia|].
    unfold emit. rewrite IH by reflexivity. simpl.
    now rewrite <- app_assoc.
Qed.

(** A measurement the sensor answers in full. *)
Lemma get_data_run (k sd od : Z) (xs : list (float * float)) (r0 r1 : float * float)
    (rest : list (option (float * float))) (w : world) :
  1 <= k ->
  List.length xs = Z.to_nat k ->
  0 <= sd ->
  0 <= od ->
  sensor w = (Some r0 :: map Some xs ++ Some r1 :: rest)%list ->
  get_data k sd od w
  = (inr (py_round1 (mean (map fst xs)), py_round1 (mean (map snd xs))),
     {| sensor := rest; dequeue_pm25 := dequeue_pm25 w;
        dequeue_pm10 := dequeue_pm10 w;
        trace := (trace w ++ Slept sd :: repeat (Slept od) (List.length xs)
                  ++ Slept od
                  :: metric_events (py_round1 (mean (map fst xs)),
                                    py_round1 (mean (map snd xs))))%list |}).
Proof.
  intros Hk Hlen Hsd Hod Hs.
  unfold mean. rewrite !length_map, Hlen, Z2Nat.id by lia.
  unfold get_data.
  rewrite bind_run. unfold sensor_sleep. rewrite bind_run.
  unfold sensor_call. rewrite Hs. unfold ret at 1.
  rewrite bind_run. unfold time_sleep at 1.
  destruct (Z.ltb_spec sd 0) as [H|_]; [lia|]. unfold emit at 1.
  rewrite bind_run, <- Hlen.
  match goal with
  | |- context [query_loop _ od ?acc ?w0] =>
      rewrite (query_loop_run xs od acc w0 (Some r1 :: rest) Hod eq_refl)
  end.
  cbv beta iota. unfold float_div.
  destruct (Z.eqb_spec k 0) as [H|_]; [lia|].
  rewrite bind_run. unfold ret at 1.
  rewrite bind_run. unfold ret at 1.
  rewrite bind_run. unfold sensor_sleep. rewrite bind_run.
  unfold sensor_call. cbn [sensor]. unfold ret at 1.
  rewrite bind_run. unfold time_sleep.
  destruct (Z.ltb_spec od 0) as [H|_]; [lia|].
  unfold bind, emit, ret, metric_events. cbn [sensor dequeue_pm25 dequeue_pm10 trace fst snd].
  rewrite Hlen. repeat rewrite <- app_assoc. reflexivity.
Qed.

(** C4, as the code has it: for k >= 1 sub-samples the sampler returns,
    component by component, the mean of the k values it queried as double
    arithmetic computes it (their sum taken from the left, divided by k),
    rounded by [round] to one decimal place: the double nearest to n / 10
    for the integer n nearest to ten times the computed mean, ties to even.
    For the three sub-samples (10,20), (12,22), (11,21) it returns 11.0 and
    21.0. *)
Theorem sampler_mean (k sd od : Z) (xs : list (float * float)) (r0 r1 : float * float)
    (rest : list (option (float * float))) (w : world) :
  1 <= k ->
  List.length xs = Z.to_nat k ->
  0 <= sd ->
  0 <= od ->
  sensor w = (Some r0 :: map Some xs ++ Some r1 :: rest)%list ->
  fst (get_data k sd od w)
  = inr (py_round1 (mean (map fst xs)), py_round1 (mean (map snd xs))) /\
  sensor (snd (get_data k sd od w)) = rest /\
  (forall x,
     match Prim2SF x with
     | S754_finite s m e =>
         if e <? -3 then
           exists n : Z,
             py_round1 x
             = (if s then - (float_of_Z n / 10) else float_of_Z n / 10)%float /\
             (-(1 # 2) <= magnitude m e * (10 # 1) - inject_Z n <= 1 # 2)%Q
         else py_round1 x = x
     | _ => py_round1 x = x
     end) /\
  fst (get_data 3 5 1 (started 1 script_one_cycle)) = inr (11, 21)%float.
Proof.
  intros Hk Hlen Hsd Hod Hs.
  assert (G : exists w',
             get_data k sd od w
             = (inr (py_round1 (mean (map fst xs)), py_round1 (mean (map snd xs))), w')
             /\ sensor w' = rest).
  { unfold mean. rewrite !length_map, Hlen, Z2Nat.id by lia.
    unfold get_data.
    unfold bind at 1. unfold sensor_sleep, bind at 1, sensor_call. rewrite Hs.
    unfold ret at 1.
    unfold bind at 1. unfold time_sleep at 1.
    destruct (Z.ltb_spec sd 0) as [H|_]; [lia|]. unfold emit at 1.
    rewrite <- Hlen. unfold bind at 1.
    match goal with
    | |- context [query_loop _ od ?acc ?w0] =>
        destruct (query_loop_ok xs od acc w0 (Some r1 :: rest) Hod eq_refl)
          as (w3 & E3 & Hs3)
    end.
    rewrite E3. cbv beta iota.
    unfold float_div.
    destruct (Z.eqb_spec k 0) as [H|_]; [lia|].
    unfold bind at 1. unfold ret at 1.
    unfold bind at 1. unfold ret at 1.
    unfold bind at 1. unfold sensor_sleep, bind at 1, sensor_call. rewrite Hs3.
    unfold ret at 1.
    unfold bind at 1. unfold time_sleep.
    destruct (Z.ltb_spec od 0) as [H|_]; [lia|].
    unfold bind, emit, ret. simpl.
    eexists. split; reflexivity. }
  destruct G as (w' & E & Hw').
  rewrite E. cbn [fst snd].
  split; [reflexivity|]. split; [exact Hw'|].
  split; [exact py_round1_one_decimal | vm_compute; reflexivity].
Qed.

Lemma sampler_mean_witness :
  fst (get_data 3 5 1 (started 1 script_one_cycle)) = inr (11, 21)%float.
Proof.
  assert (H1 : 1 <= 3) by lia.
  assert (H2 : 0 <= 5) by lia.
  assert (H3 : 0 <= 1) by lia.
  exact (proj1 (sampler_mean 3 5 1
                  [(10, 20); (12, 22); (11, 21)]%float
                  (0, 0)%float (0, 0)%float [] (started 1 script_one_cycle)
                  H1 eq_refl H2 H3 eq_refl)).
Defined.

(** C4, as the specification has it, fails: for the two sub-samples
    (0.3, 0.3) and (0.4, 0.4) the arithmetic mean of the two values lies
    above 0.35, so that rounded to one decimal place it is 0.4; the sampler
    returns 0.3, more than one twentieth below the mean, because the sum
    0.3 + 0.4 is rounded to the double below 0.7 before it is halved. *)
Lemma sampler_mean_not_the_rounded_mean :
  fst (get_data 2 5 1
         (started 1 [Some (0, 0); Some (0.3, 0.3); Some (0.4, 0.4); Some (0, 0)]%float))
  = inr (0.3, 0.3)%float /\
  (7 # 20 < exact_mean [0.3; 0.4]%float)%Q /\
  round_half_even (exact_mean [0.3; 0.4]%float * (10 # 1)) = 4 /\
  (1 # 20 < exact_mean [0.3; 0.4]%float - float_to_Q 0.3)%Q.
Proof. repeat split. Qed.

(** ** The rest of a cycle *)

Section PreservesEvents.
Context (P : list event -> Prop) `{EP : EventProp P}.

Lemma preserves_emit (e : event) : P [e] -> preserves (evolves P) (emit e).
Proof. intros H w. exists [e]. now split. Qed.

Lemma preserves_silent {A} (m : M A) :
  (forall w, trace (snd (m w)) = trace w) -> preserves (evolves P) m.
Proof.
  intros H w. exists []. split; [now rewrite H, app_nil_r | apply ep_nil].
Qed.

Lemma preserves_dequeue_pm25_append (x : float) :
  preserves (evolves P) (dequeue_pm25_append x).
Proof. now apply preserves_silent. Qed.

Lemma preserves_dequeue_pm10_append (x : float) :
  preserves (evolves P) (dequeue_pm10_append x).
Proof. now apply preserves_silent. Qed.

Lemma preserves_average_pm25 : preserves (evolves P) average_pm25.
Proof. now apply preserves_silent. Qed.

Lemma preserves_average_pm10 : preserves (evolves P) average_pm10.
Proof. now apply preserves_silent. Qed.

Lemma preserves_create_deques (n : Z) : preserves (evolves P) (create_deques n).
Proof. now apply preserves_silent. Qed.
End PreservesEvents.

(** Discharges [preserves (evolves P) m] for a program [m] built from the
    steps above, when [P] holds of every single event [m] can emit. *)
Ltac pres_side :=
  first [ typeclasses eauto | reflexivity | solve [repeat constructor] ].

Ltac pres_with special :=
  repeat first
    [ special
    | apply preserves_ret; pres_side
    | apply preserves_raise; pres_side
    | apply preserves_lift; pres_side
    | apply preserves_sensor_sleep; pres_side
    | apply preserves_sensor_call; pres_side
    | apply preserves_time_sleep; pres_side
    | apply preserves_float_div; pres_side
    | apply preserves_query_loop; pres_side
    | apply preserves_dequeue_pm25_append; pres_side
    | apply preserves_dequeue_pm10_append; pres_side
    | apply preserves_average_pm25; pres_side
    | apply preserves_average_pm10; pres_side
    | apply preserves_create_deques; pres_side
    | apply preserves_emit; pres_side
    | apply preserves_bind; [pres_side | | intros ?]
    | match goal with
      | |- preserves _ (match ?x with _ => _ end) => destruct x
      | |- preserves _ (if ?b then _ else _) => destruct b
      end ].

Ltac pres := pres_with fail.

Lemma led_colors_same_level (lvl : level_obj) (c : string) :
  match led_colors lvl c with
  | inr (c1, c2) =>
      exists l, level_subscript lvl "level" = inr l /\
                c1 = get_aqi_color l c /\ c2 = get_aqi_color l c
  | inl _ => True
  end.
Proof.
  unfold led_colors.
  destruct (level_subscript lvl "level") as [e|l]; [exact I|].
  now exists l.
Qed.

(** Called with one color for both LEDs, the LED sink writes that color to
    both color files or to neither. *)
Lemma preserves_set_turris_omnia_led_same (omnia : bool) (c : pycolor) :
  preserves (evolves leds_agree) (set_turris_omnia_led omnia c c).
Proof.
  intros w. unfold set_turris_omnia_led, set_led, open_w.
  destruct omnia.
  - destruct c as [s|]; simpl.
    + destruct (String.eqb s ""); simpl.
      * apply fr_refl.
      * eexists. split; [rewrite <- !app_assoc; reflexivity | reflexivity].
    + eexists. split; [rewrite <- !app_assoc; reflexivity | reflexivity].
  - destruct c as [s|]; simpl; [destruct (String.eqb s ""); simpl|]; apply fr_refl.
Qed.

Lemma preserves_led_step (omnia : bool) (lvl : level_obj) (c : string) :
  preserves (evolves leds_agree)
    ('(color_aqi_pm25, color_aqi_pm10) <- lift (led_colors lvl c) ;;
     set_turris_omnia_led omnia color_aqi_pm25 color_aqi_pm10).
Proof.
  intros w. unfold bind, lift.
  pose proof (led_colors_same_level lvl c) as H.
  destruct (led_colors lvl c) as [e|[c1 c2]]; simpl.
  - apply fr_refl.
  - destruct H as (l & _ & -> & ->).
    apply preserves_set_turris_omnia_led_same.
Qed.

(** C9: in every cycle the two colors handed to the LED sink come from the
    same level name and country, and the lines written to the PM2.5 LED's
    color file are the lines written to the PM10 LED's color file. *)
Theorem led_channels_agree (lib : aqipy) (omnia : bool) (a : args) (w : world)
    (lvl : level_obj) :
  match led_colors lvl (country a) with
  | inr (c1, c2) =>
      exists l, level_subscript lvl "level" = inr l /\
                c1 = get_aqi_color l (country a) /\
                c2 = get_aqi_color l (country a)
  | inl _ => True
  end /\
  exists evs,
    trace (snd (cycle lib omnia a w)) = (trace w ++ evs)%list /\
    written_to led_user1_color evs = written_to led_user2_color evs.
Proof.
  split; [apply led_colors_same_level|].
  change (evolves leds_agree w (snd (cycle lib omnia a w))).
  revert w. change (preserves (evolves leds_agree) (cycle lib omnia a)).
  unfold cycle, get_data, save_log, publish_mqtt.
  pres_with ltac:(apply preserves_led_step).
Qed.

(** The metric calls of a cycle are those of its measurement. *)
Lemma cycle_metrics (lib : aqipy) (omnia : bool) (a : args) (w : world) :
  match get_data (measures a) (sensor_start_delay a) (sensor_operation_delay a) w with
  | (inr pm, _) =>
      metrics (snd (cycle lib omnia a w)) = (metrics w ++ metric_events pm)%list
  | (inl _, _) => metrics (snd (cycle lib omnia a w)) = metrics w
  end.
Proof.
  pose proof (get_data_spec (measures a) (sensor_start_delay a)
                (sensor_operation_delay a) w) as Hg.
  unfold cycle. rewrite bind_run.
  destruct (get_data (measures a) (sensor_start_delay a)
              (sensor_operation_delay a) w) as [[e|[p25 p10]] w1].
  - simpl. now apply quiet_metrics.
  - destruct Hg as (w0 & Hq & ->).
    match goal with
    | |- metrics (snd (?rest ?w2)) = _ =>
        assert (Hr : preserves (evolves no_metrics) rest)
          by (unfold save_log, publish_mqtt, set_turris_omnia_led, set_led,
                open_w, color_plus_newline; pres);
        destruct (Hr w2) as (evs & Ht & Hn)
    end.
    unfold metrics at 1. rewrite Ht, filter_app, Hn, app_nil_r. simpl.
    rewrite filter_app. fold (metrics w0). rewrite (quiet_metrics _ _ Hq).
    reflexivity.
Qed.

(** C8: in a cycle whose measurement the sensor answers, whatever the sinks
    after it do, the metric calls are exactly these four, in this order: the
    two gauges are set to the cycle's reading (the rounded means of the
    sub-samples), pm25 is observed into the pm25 histogram and the
    difference pm10 - pm25, not pm10, into the pm10 histogram. More
    generally the metric calls of a cycle are those four for the reading
    its measurement returns, and none when the measurement fails. Both
    histograms have the bucket boundaries 0, 5, ..., 100. *)
Theorem metrics_each_cycle (lib : aqipy) (omnia : bool) (a : args) (w : world) :
  buckets PM25_HIST = map (fun i => 5 * Z.of_nat i) (seq 0 21) /\
  buckets PM10_HIST = map (fun i => 5 * Z.of_nat i) (seq 0 21) /\
  (forall xs r0 r1 rest,
     1 <= measures a ->
     List.length xs = Z.to_nat (measures a) ->
     0 <= sensor_start_delay a ->
     0 <= sensor_operation_delay a ->
     sensor w = (Some r0 :: map Some xs ++ Some r1 :: rest)%list ->
     let pm25 := py_round1 (mean (map fst xs)) in
     let pm10 := py_round1 (mean (map snd xs)) in
     metrics (snd (cycle lib omnia a w))
     = (metrics w ++
        [GaugeSet PM25 pm25; GaugeSet PM10 pm10;
         HistObserve PM25_HIST pm25;
         HistObserve PM10_HIST (pm10 - pm25)%float])%list) /\
  match get_data (measures a) (sensor_start_delay a) (sensor_operation_delay a) w with
  | (inr pm, _) =>
      metrics (snd (cycle lib omnia a w))
      = (metrics w ++
         [GaugeSet PM25 (fst pm); GaugeSet PM10 (snd pm);
          HistObserve PM25_HIST (fst pm);
          HistObserve PM10_HIST (snd pm - fst pm)%float])%list
  | (inl _, _) => metrics (snd (cycle lib omnia a w)) = metrics w
  end.
Proof.
  split; [reflexivity|]. split; [reflexivity|].
  pose proof (cycle_metrics lib omnia a w) as Hm.
  split; [|exact Hm].
  intros xs r0 r1 rest Hk Hlen Hsd Hod Hs pm25 pm10.
  rewrite (get_data_run _ _ _ xs r0 r1 rest w Hk Hlen Hsd Hod Hs) in Hm.
  exact Hm.
Qed.

Lemma metrics_each_cycle_witness :
  metrics (snd (cycle aqipy_sample false args_mqtt_only (started 1 script_one_cycle)))
  = [GaugeSet PM25 11; GaugeSet PM10 21;
     HistObserve PM25_HIST 11; HistObserve PM10_HIST 10]%float.
Proof.
  assert (H1 : 1 <= measures args_mqtt_only) by (simpl; lia).
  assert (H2 : 0 <= sensor_start_delay args_mqtt_only) by (simpl; lia).
  assert (H3 : 0 <= sensor_operation_delay args_mqtt_only) by (simpl; lia).
  exact (proj1 (proj2 (proj2
           (metrics_each_cycle aqipy_sample false args_mqtt_only
              (started 1 script_one_cycle))))
           [(10, 20); (12, 22); (11, 21)]%float (0, 0)%float (0, 0)%float []
           H1 eq_refl H2 H3 eq_refl).
Defined.

(** The difference observed is the difference of two doubles, rounded to
    the nearest double: for a reading of 1.1 for pm25 and 16.1 for pm10 the
    exact difference lies between the neighbouring doubles 15 and
    15.000000000000002, nearer to the second, which is the value observed;
    it lies above the bucket boundary 15. *)
Example coarse_fraction_observed :
  metrics (snd (get_data 1 5 1
                  (started 1 [Some (0, 0); Some (1.1, 16.1); Some (0, 0)]%float)))
  = [GaugeSet PM25 1.1; GaugeSet PM10 16.1; HistObserve PM25_HIST 1.1;
     HistObserve PM10_HIST 15.000000000000002]%float /\
  next_up 15 = 15.000000000000002%float /\
  (float_to_Q 15 < float_to_Q 16.1 - float_to_Q 1.1 < float_to_Q 15.000000000000002)%Q /\
  (float_to_Q 15.000000000000002 - (float_to_Q 16.1 - float_to_Q 1.1)
   < float_to_Q 16.1 - float_to_Q 1.1 - float_to_Q 15)%Q.
Proof. repeat split. Qed.

Lemma preserves_emit_deques (e : event) : preserves same_deques (emit e).
Proof. intros w. split; reflexivity. Qed.



Lemma mqtt_topic_rstrip (base : string) : mqtt_topic base = rstrip "/" base.
Proof.
  unfold mqtt_topic. destruct (endswith base "/") eqn:E; [reflexivity|].
  symmetry. now apply rstrip_fixed.
Qed.


Lemma mqtt_messages_topics (base : string) (aqi : Z) (lvl : level_obj) (p25 p10 : float) :
  map msg_topic (mqtt_messages base aqi lvl p25 p10) = four_topics (mqtt_topic base).
Proof. reflexivity. Qed.


(** One full cycle with every sink on, for the sub-samples (10,20),
    (12,22), (11,21): the events, in the order the script makes them. *)
Example cycle_all_sinks :
  cycle aqipy_sample true args_all_sinks (started 1 script_one_cycle)
  = (inr tt,
     {| sensor := [];
        dequeue_pm25 := {| maxlen := 1; items := [11]%float |};
        dequeue_pm10 := {| maxlen := 1; items := [21]%float |};
        trace :=
          [Slept 5; Slept 1; Slept 1; Slept 1; Slept 1;
           GaugeSet PM25 11%float; GaugeSet PM10 21%float;
           HistObserve PM25_HIST 11%float; HistObserve PM10_HIST 10%float;
           FileOpenW led_user1_autonomous;
           FileWrite led_user1_autonomous ("0" ++ newline);
           FileOpenW led_user1_color;
           FileWrite led_user1_color ("121 227 71" ++ newline);
           FileOpenW led_user2_autonomous;
           FileWrite led_user2_autonomous ("0" ++ newline);
           FileOpenW led_user2_color;
           FileWrite led_user2_color ("121 227 71" ++ newline);
           LogAppend "aqi.csv" 11%float 21%float 46;
           MqttPublish "broker" 1883
             [{| msg_topic := "aqi/aqi"; msg_payload := StrInt 46;
                 msg_qos := 0; msg_retain := false |};
              {| msg_topic := "aqi/level";
                 msg_payload := StrLevel (LevelDict [("level", "Good")]);
                 msg_qos := 0; msg_retain := false |};
              {| msg_topic := "aqi/current_pm25"; msg_payload := StrFloat 11%float;
                 msg_qos := 0; msg_retain := false |};
              {| msg_topic := "aqi/current_pm10"; msg_payload := StrFloat 21%float;
                 msg_qos := 0; msg_retain := false |}];
           Slept 10] |}).
Proof. vm_compute. reflexivity. Qed.

(** An unmapped level with the LEDs on: the first LED is switched out of
    autonomous mode, then [None + "\n"] raises and the loop ends. *)
Example cycle_unmapped_level :
  let lib :=
    {| aqi_cn_get_aqi := aqi_cn_get_aqi aqipy_sample;
       aqi_cn_get_aqi_with_level := aqi_cn_get_aqi_with_level aqipy_sample;
       caqi_eu_get_caqi := caqi_eu_get_caqi aqipy_sample;
       caqi_eu_get_caqi_with_level := caqi_eu_get_caqi_with_level aqipy_sample;
       aqi_us_get_aqi := aqi_us_get_aqi aqipy_sample;
       aqi_us_get_aqi_with_level :=
         fun _ _ => (46, LevelDict [("level", "Unknown")]) |} in
  fst (cycle lib true args_all_sinks (started 1 script_one_cycle)) = inl TypeError /\
  published (trace (snd (cycle lib true args_all_sinks (started 1 script_one_cycle)))) = [].
Proof. vm_compute. split; reflexivity. Qed.


Lemma published_app (a b : list event) : published (a ++ b) = (published a ++ published b)%list.
Proof. apply flat_map_app. Qed.

Lemma logged_app (a b : list event) : logged (a ++ b) = (logged a ++ logged b)%list.
Proof. apply flat_map_app. Qed.

Lemma only_files_silent (evs : list event) :
  only_files evs ->
  slept evs = 0 /\ published evs = [] /\ logged evs = [] /\ filter is_metric evs = [].
Proof.
  unfold only_files. induction evs as [|e evs IH]; [now repeat split|].
  simpl. destruct e; simpl; try discriminate; intros H; exact (IH H).
Qed.

Lemma led_step_ok (lib : aqipy) (omnia : bool) (a : args) (pm25 pm10 : float) (w : world) :
  leds_safe lib omnia a ->
  exists evs,
    only_files evs /\
    (if omnia_leds a
     then '(color_aqi_pm25, color_aqi_pm10) <-
            lift (led_colors (snd (compute_aqi lib pm25 pm10 (country a))) (country a)) ;;
          set_turris_omnia_led omnia color_aqi_pm25 color_aqi_pm10
     else ret tt) w
    = (inr tt,
       {| sensor := sensor w; dequeue_pm25 := dequeue_pm25 w;
          dequeue_pm10 := dequeue_pm10 w; trace := (trace w ++ evs)%list |}).
Proof.
  intros [Hoff|[-> Hsafe]].
  - rewrite Hoff. exists []. split; [reflexivity|].
    rewrite app_nil_r. now destruct w.
  - destruct (omnia_leds a).
    + destruct (Hsafe pm25 pm10) as (l & s & El & Es).
      rewrite bind_run. unfold lift, led_colors. rewrite El, Es.
      unfold set_turris_omnia_led, set_led, open_w, color_ne_empty, color_plus_newline.
      destruct (String.eqb s ""); unfold bind, emit, ret;
        cbn [negb fst snd sensor dequeue_pm25 dequeue_pm10 trace].
      * exists []. split; [reflexivity|]. rewrite app_nil_r. now destruct w.
      * eexists. split; [|repeat rewrite <- app_assoc; reflexivity]. reflexivity.
    + exists []. split; [reflexivity|]. rewrite app_nil_r. now destruct w.
Qed.

(** A cycle whose measurement returned a reading, on windows of capacity at
    least 1 and with an LED sink that cannot raise: everything up to the
    final sleep happens, and the final sleep decides the outcome. *)
Lemma cycle_run (lib : aqipy) (omnia : bool) (a : args) (w w1 : world) (pm : float * float) :
  get_data (measures a) (sensor_start_delay a) (sensor_operation_delay a) w
  = (inr pm, w1) ->
  (1 <= maxlen (dequeue_pm25 w1))%nat ->
  (1 <= maxlen (dequeue_pm10 w1))%nat ->
  leds_safe lib omnia a ->
  exists w' led_evs,
    cycle lib omnia a w = (if delay a <? 0 then inl ValueError else inr tt, w') /\
    sensor w' = sensor w1 /\
    dequeue_pm25 w' = deque_append (dequeue_pm25 w1) (fst pm) /\
    dequeue_pm10 w' = deque_append (dequeue_pm10 w1) (snd pm) /\
    only_files led_evs /\
    trace w'
    = (trace w1 ++ led_evs
       ++ log_events a pm (fst (fst (cycle_aqi lib a w1 pm)))
       ++ mqtt_events a pm (fst (fst (cycle_aqi lib a w1 pm))) (snd (cycle_aqi lib a w1 pm))
       ++ (if delay a <? 0 then [] else [Slept (delay a)]))%list.
Proof.
  intros Eg H25 H10 Hsafe. destruct pm as [p25 p10].
  unfold cycle_aqi. cbn [fst snd].
  unfold cycle. rewrite bind_run, Eg. cbv beta iota.
  rewrite bind_run. unfold dequeue_pm25_append at 1. cbv beta iota.
  rewrite bind_run. unfold dequeue_pm10_append at 1. cbv beta iota.
  rewrite bind_run. unfold average_pm25 at 1.
  cbn [dequeue_pm25 dequeue_pm10 sensor trace].
  rewrite (deque_average_append _ p25 H25).
  rewrite bind_run. unfold average_pm10 at 1.
  cbn [dequeue_pm25 dequeue_pm10 sensor trace].
  rewrite (deque_average_append _ p10 H10).
  set (avg25 := mean (items (deque_append (dequeue_pm25 w1) p25))).
  set (avg10 := mean (items (deque_append (dequeue_pm10 w1) p10))).
  destruct (compute_aqi lib avg25 avg10 (country a)) as [[aqi data] lvl] eqn:EC.
  cbn [fst snd].
  rewrite bind_run.
  match goal with
  | |- context [(if omnia_leds a then _ else _) ?w5] =>
      destruct (led_step_ok lib omnia a avg25 avg10 w5 Hsafe) as (led_evs & Hf & El)
  end.
  rewrite EC in El. cbn [snd] in El. rewrite El.
  cbn [dequeue_pm25 dequeue_pm10 sensor trace].
  exists
    {| sensor := sensor w1;
       dequeue_pm25 := deque_append (dequeue_pm25 w1) p25;
       dequeue_pm10 := deque_append (dequeue_pm10 w1) p10;
       trace := (trace w1 ++ led_evs ++ log_events a (p25, p10) aqi
                 ++ mqtt_events a (p25, p10) aqi lvl
                 ++ (if delay a <? 0 then [] else [Slept (delay a)]))%list |},
    led_evs.
  split; [|repeat split; assumption].
  unfold log_events, mqtt_events, save_log, publish_mqtt, time_sleep.
  destruct (log a), (mqtt_hostname a), (delay a <? 0);
    unfold bind, emit, ret, raise; cbn [fst snd sensor dequeue_pm25 dequeue_pm10 trace];
    rewrite <- ?app_assoc, ?app_nil_r; reflexivity.
Qed.




(** With a negative delay the cycle publishes its four messages and then
    ends in ValueError at the final sleep. *)
Example publish_before_failing_sleep :
  let a :=
    {| arg_bind := "0.0.0.0"; arg_port := 8000; country := "US"; delay := -1;
       log := None; measures := 3; mqtt_hostname := Some "broker";
       mqtt_port := 1883; mqtt_base_topic := "aqi/"; omnia_leds := false;
       sensor_path := "/dev/ttyUSB0"; sensor_operation_delay := 1;
       sensor_start_delay := 5; prometheus := false |} in
  fst (cycle aqipy_sample false a (started 1 script_one_cycle)) = inl ValueError /\
  map (map msg_topic)
    (published (trace (snd (cycle aqipy_sample false a (started 1 script_one_cycle)))))
  = [["aqi/aqi"; "aqi/level"; "aqi/current_pm25"; "aqi/current_pm10"]].
Proof. split; reflexivity. Qed.

(** ** Sensor failures *)

(** C1, as the code has it: a sensor failure while a cycle takes its
    measurement is not caught. That cycle exports nothing and pushes nothing
    into the windows, and the exception leaves the cycle and the main loop:
    the program ends there, no later cycle runs. *)
Theorem sensor_failure_ends_loop (lib : aqipy) (omnia : bool) (a : args) (w w1 : world) (n : nat) :
  get_data (measures a) (sensor_start_delay a) (sensor_operation_delay a) w
  = (inl SensorError, w1) ->
  exports w1 = exports w /\
  dequeue_pm25 w1 = dequeue_pm25 w /\
  dequeue_pm10 w1 = dequeue_pm10 w /\
  cycle lib omnia a w = (inl SensorError, w1) /\
  main_loop lib omnia a (S n) w = (inl SensorError, w1).
Proof.
  intros E.
  pose proof (get_data_spec (measures a) (sensor_start_delay a)
                (sensor_operation_delay a) w) as Hg.
  rewrite E in Hg.
  assert (Hc : cycle lib omnia a w = (inl SensorError, w1)).
  { unfold cycle. now rewrite bind_run, E. }
  split; [now apply quiet_exports|].
  destruct Hg as [[H25 H10] _].
  repeat split; try assumption.
  simpl. now rewrite bind_run, Hc.
Qed.

Lemma sensor_failure_ends_loop_witness :
  main_loop aqipy_sample true args_defaults 2
    (started 1 (Some (0, 0) :: None :: script_one_cycle)%float)
  = (inl SensorError,
     {| sensor := script_one_cycle; dequeue_pm25 := deque_new 1;
        dequeue_pm10 := deque_new 1; trace := [Slept 5] |}).
Proof.
  exact (proj2 (proj2 (proj2 (proj2
    (sensor_failure_ends_loop aqipy_sample true args_defaults
       (started 1 (Some (0, 0) :: None :: script_one_cycle)%float)
       {| sensor := script_one_cycle; dequeue_pm25 := deque_new 1;
          dequeue_pm10 := deque_new 1; trace := [Slept 5] |}
       1%nat eq_refl))))).
Defined.

(** C1, as the specification has it, fails: the wake-up succeeds, the first
    query raises, and the loop observed for two iterations has ended with
    the exception after the first; the complete second measurement the
    sensor had ready is never asked for. *)
Lemma sensor_failure_not_cycle_local :
  fst (main_loop aqipy_sample true args_all_sinks 2
         (started 1 (Some (0, 0) :: None :: script_one_cycle)%float))
  = inl SensorError /\
  sensor (snd (main_loop aqipy_sample true args_all_sinks 2
                 (started 1 (Some (0, 0) :: None :: script_one_cycle)%float)))
  = script_one_cycle /\
  trace (snd (main_loop aqipy_sample true args_all_sinks 2
                (started 1 (Some (0, 0) :: None :: script_one_cycle)%float)))
  = [Slept 5].
Proof. repeat split. Qed.

(** ** Country validation *)

Lemma parse_args_country (c : cmdline) (a : args) :
  parse_args c = inr a -> In (country a) country_choices.
Proof.
  unfold parse_args, parse_country.
  destruct (opt_country c) as [code|].
  - destruct (tuple_contains country_choices code) eqn:E; [|discriminate].
    intros H. injection H as <-. apply tuple_contains_spec in E. exact E.
  - intros H. injection H as <-. simpl. auto.
Qed.

(** C7: a country code outside CN, EU, US makes argument parsing exit with
    status 2: the program ends before start-up and before the first cycle,
    with the sensor untouched and nothing exported; whatever country reaches
    the running program is one of the three. *)
Theorem unsupported_country_rejected (lib : aqipy) (omnia : bool) (c : cmdline) (code : string)
    (fuel : nat) (w : world) :
  opt_country c = Some code ->
  ~ In code country_choices ->
  parse_args c = inl (SystemExit 2) /\
  program lib omnia c fuel w = (inl (SystemExit 2), w) /\
  (forall c' a, parse_args c' = inr a -> In (country a) country_choices).
Proof.
  intros Hc Hn.
  assert (Hp : parse_args c = inl (SystemExit 2)).
  { unfold parse_args, parse_country. rewrite Hc.
    apply tuple_contains_false in Hn. now rewrite Hn. }
  split; [exact Hp|]. split; [|apply parse_args_country].
  unfold program. rewrite bind_run. unfold lift. now rewrite Hp.
Qed.

Lemma unsupported_country_rejected_witness :
  program aqipy_sample true cmdline_FR 3 (boot script_one_cycle)
  = (inl (SystemExit 2), boot script_one_cycle).
Proof.
  assert (Hn : ~ In "FR" country_choices).
  { simpl. intros [H|[H|[H|[]]]]; discriminate H. }
  exact (proj1 (proj2
    (unsupported_country_rejected aqipy_sample true cmdline_FR "FR" 3
       (boot script_one_cycle) eq_refl Hn))).
Defined.

(** * Further properties *)

(** ** Boolean options *)

Lemma ascii_lower_idempotent (c : ascii) :
  ascii_lower (ascii_lower c) = ascii_lower c.
Proof. destruct c as [[] [] [] [] [] [] [] []]; reflexivity. Qed.

Lemma str_lower_idempotent (s : string) : str_lower (str_lower s) = str_lower s.
Proof.
  induction s as [|c s IH]; simpl; [reflexivity|].
  now rewrite ascii_lower_idempotent, IH.
Qed.

Lemma str_lower_length (s : string) : String.length (str_lower s) = String.length s.
Proof. induction s as [|c s IH]; simpl; congruence. Qed.

(** X1: [str_to_bool] does not look at letter case, never answers for a
    text of more than five characters or for the empty text, and answers
    [False] and [True] on disjoint sets of texts. *)
Theorem str_to_bool_case_and_rejects (value : string) :
  str_to_bool (str_lower value) = str_to_bool value /\
  ((5 < String.length value)%nat -> str_to_bool value = inl ValueError) /\
  (value = "" -> str_to_bool value = inl ValueError) /\
  (str_to_bool value = inr false <->
   In (str_lower value) ["false"; "f"; "0"; "no"; "n"]) /\
  (str_to_bool value = inr true <->
   In (str_lower value) ["true"; "t"; "1"; "yes"; "y"]).
Proof.
  split; [unfold str_to_bool; now rewrite str_lower_idempotent|].
  split.
  { intros Hlen. unfold str_to_bool.
    rewrite <- str_lower_length in Hlen.
    destruct (tuple_contains _ (str_lower value)) eqn:E1.
    - apply tuple_contains_spec in E1. simpl in E1.
      destruct E1 as [E1|[E1|[E1|[E1|[E1|[]]]]]];
        rewrite <- E1 in Hlen; simpl in Hlen; lia.
    - destruct (tuple_contains ["true"; "t"; "1"; "yes"; "y"] (str_lower value)) eqn:E2;
        [|reflexivity].
      apply tuple_contains_spec in E2. simpl in E2.
      destruct E2 as [E2|[E2|[E2|[E2|[E2|[]]]]]];
        rewrite <- E2 in Hlen; simpl in Hlen; lia. }
  split; [intros ->; reflexivity|].
  unfold str_to_bool. split.
  - destruct (tuple_contains ["false"; "f"; "0"; "no"; "n"] (str_lower value)) eqn:E1.
    + apply tuple_contains_spec in E1. tauto.
    + apply tuple_contains_false in E1.
      destruct (tuple_contains _ (str_lower value)); split; try discriminate; tauto.
  - destruct (tuple_contains ["false"; "f"; "0"; "no"; "n"] (str_lower value)) eqn:E1.
    + apply tuple_contains_spec in E1. split; [discriminate|].
      intros H. exfalso. simpl in E1, H.
      destruct E1 as [E1|[E1|[E1|[E1|[E1|[]]]]]]; rewrite <- E1 in H;
        destruct H as [H|[H|[H|[H|[H|[]]]]]]; discriminate H.
    + destruct (tuple_contains ["true"; "t"; "1"; "yes"; "y"] (str_lower value)) eqn:E2.
      * apply tuple_contains_spec in E2. tauto.
      * apply tuple_contains_false in E2. split; [discriminate | tauto].
Qed.

Lemma str_to_bool_case_and_rejects_witness :
  str_to_bool "maybe yes" = inl ValueError /\
  str_to_bool "YES" = inr true /\
  str_to_bool "No" = inr false.
Proof.
  split.
  - apply (proj1 (proj2 (str_to_bool_case_and_rejects "maybe yes"))). simpl. lia.
  - split.
    + apply (proj2 (proj2 (proj2 (proj2 (str_to_bool_case_and_rejects "YES"))))).
      simpl. auto.
    + apply (proj1 (proj2 (proj2 (proj2 (str_to_bool_case_and_rejects "No"))))).
      simpl. auto.
Defined.

(** ** Color table *)

Lemma in_country_choices_dec (c : string) :
  {In c country_choices} + {~ In c country_choices}.
Proof. apply in_dec, string_dec. Qed.

Lemma mapped_levels_supported (l c : string) :
  In l (mapped_levels c) -> In c country_choices.
Proof.
  unfold mapped_levels.
  destruct (String.eqb_spec c "CN") as [->|_]; [simpl; auto|].
  destruct (String.eqb_spec c "EU") as [->|_]; [simpl; auto|].
  destruct (String.eqb_spec c "US") as [->|_]; [simpl; auto|].
  intros [].
Qed.

(** X2: the color lookup has three outcomes and each has its own cause: a
    non-empty color exactly for a level of the country's table, the empty
    string exactly for a country outside CN, EU, US, and None exactly for a
    supported country with a level outside its table. *)
Theorem get_aqi_color_cases (l c : string) :
  ((exists s, get_aqi_color l c = PyStr s /\ s <> "") <-> In l (mapped_levels c)) /\
  (get_aqi_color l c = PyStr "" <-> ~ In c country_choices) /\
  (get_aqi_color l c = PyNone <-> In c country_choices /\ ~ In l (mapped_levels c)).
Proof.
  destruct (in_country_choices_dec c) as [Hc|Hc].
  - destruct (in_dec string_dec l (mapped_levels c)) as [Hl|Hl].
    + destruct (get_aqi_color_mapped l c Hl) as (s & Es & Hs).
      rewrite Es. split; [|split].
      * split; [intros _; exact Hl | intros _; now exists s].
      * split; [intros H; injection H as ->; congruence | contradiction].
      * split; [discriminate | tauto].
    + rewrite (get_aqi_color_unmapped l c Hc Hl). split; [|split].
      * split; [intros (s & H & _); discriminate H | contradiction].
      * split; [discriminate | contradiction].
      * tauto.
  - rewrite (get_aqi_color_unsupported l c Hc). split; [|split].
    + split.
      * intros (s & H & Hs). injection H as <-. congruence.
      * intros H. exfalso. apply Hc. eapply mapped_levels_supported, H.
    + tauto.
    + split; [discriminate | tauto].
Qed.

(** X3: in the tables of CN and EU different levels have different colors;
    in the table of US the levels "Very Unhealthy" and "Hazardous" share
    one color, and these two are the only levels that do. *)
Theorem color_table_collisions (c l1 l2 : string) :
  In l1 (mapped_levels c) ->
  In l2 (mapped_levels c) ->
  get_aqi_color l1 c = get_aqi_color l2 c ->
  l1 <> l2 ->
  c = "US" /\
  (l1 = "Very Unhealthy" /\ l2 = "Hazardous" \/
   l1 = "Hazardous" /\ l2 = "Very Unhealthy").
Proof.
  intros H1 H2 E Hne.
  pose proof (mapped_levels_supported _ _ H1) as Hc.
  destruct Hc as [<-|[<-|[<-|[]]]]; simpl in H1, H2;
    repeat (destruct H1 as [<-|H1]);
    try destruct H1;
    repeat (destruct H2 as [<-|H2]);
    try destruct H2;
    try congruence; try discriminate E; auto.
Qed.

Lemma color_table_collisions_witness :
  "US" = "US" /\
  ("Very Unhealthy" = "Very Unhealthy" /\ "Hazardous" = "Hazardous" \/
   "Very Unhealthy" = "Hazardous" /\ "Hazardous" = "Very Unhealthy").
Proof.
  apply (color_table_collisions "US" "Very Unhealthy" "Hazardous").
  - simpl. tauto.
  - simpl. tauto.
  - reflexivity.
  - discriminate.
Defined.

(** ** LED sink *)

(** X4: on a machine with the LED files the LED sink given two [str] colors
    succeeds and each color file receives its own color followed by a
    newline, or nothing when that color is the empty string, and nothing at
    all happens when both are empty; given None for the first LED it raises
    TypeError after switching that LED out of autonomous mode and opening
    its color file, and the second LED is not touched whatever its color.
    On a machine without the files it raises OSError at the first [open],
    before anything is written, unless both colors are the empty string,
    for which it opens no file and succeeds. *)
Theorem led_sink_channels (s1 s2 : string) (c2 : pycolor) (w : world) :
  fst (set_turris_omnia_led true (PyStr s1) (PyStr s2) w) = inr tt /\
  (exists evs,
      trace (snd (set_turris_omnia_led true (PyStr s1) (PyStr s2) w))
      = (trace w ++ evs)%list /\
      written_to led_user1_color evs
      = (if String.eqb s1 "" then [] else [s1 ++ newline]) /\
      written_to led_user2_color evs
      = (if String.eqb s2 "" then [] else [s2 ++ newline]) /\
      (if String.eqb s1 "" && String.eqb s2 "" then evs = [] else evs <> [])) /\
  set_turris_omnia_led true PyNone c2 w
  = (inl TypeError,
     {| sensor := sensor w; dequeue_pm25 := dequeue_pm25 w;
        dequeue_pm10 := dequeue_pm10 w;
        trace := (trace w ++
                  [FileOpenW led_user1_autonomous;
                   FileWrite led_user1_autonomous ("0" ++ newline);
                   FileOpenW led_user1_color])%list |}) /\
  set_turris_omnia_led false (PyStr s1) (PyStr s2) w
  = (if String.eqb s1 "" && String.eqb s2 "" then inr tt else inl OSError, w) /\
  set_turris_omnia_led false PyNone c2 w = (inl OSError, w).
Proof.
  split; [|split; [|split; [|split]]].
  - unfold set_turris_omnia_led, set_led, open_w, bind, color_ne_empty.
    destruct (String.eqb s1 ""), (String.eqb s2 ""); reflexivity.
  - unfold set_turris_omnia_led, set_led, open_w, bind, color_ne_empty.
    destruct (String.eqb s1 ""), (String.eqb s2 ""); simpl;
      eexists; (split; [rewrite <- ?app_assoc; simpl;
                        try (symmetry; apply app_nil_r); reflexivity|]);
      repeat split; discriminate.
  - unfold set_turris_omnia_led, set_led, open_w, bind. simpl.
    now rewrite <- !app_assoc.
  - unfold set_turris_omnia_led, set_led, open_w, bind, color_ne_empty.
    destruct (String.eqb s1 ""), (String.eqb s2 ""); reflexivity.
  - reflexivity.
Qed.

(** ** Unknown country in the calculator *)

(** X5: for a country outside CN, EU, US the calculator does not consult
    aqipy: it returns index -1, empty data and the empty string as level,
    and reading ["level"] from that level, as the LED branch does, raises
    TypeError. *)
Theorem compute_aqi_unknown_country (lib : aqipy) (pm25 pm10 : float) (c : string) :
  ~ In c country_choices ->
  compute_aqi lib pm25 pm10 c = (-1, [], LevelStr "") /\
  led_colors (snd (compute_aqi lib pm25 pm10 c)) c = inl TypeError.
Proof.
  intros H.
  assert (E : compute_aqi lib pm25 pm10 c = (-1, [], LevelStr "")).
  { unfold compute_aqi.
    destruct (String.eqb_spec c "CN") as [->|_]; [exfalso; apply H; simpl; auto|].
    destruct (String.eqb_spec c "EU") as [->|_]; [exfalso; apply H; simpl; auto|].
    destruct (String.eqb_spec c "US") as [->|_]; [exfalso; apply H; simpl; auto|].
    reflexivity. }
  split; [exact E|]. now rewrite E.
Qed.

Lemma compute_aqi_unknown_country_witness :
  compute_aqi aqipy_sample 11%float 21%float "FR" = (-1, [], LevelStr "").
Proof.
  assert (Hn : ~ In "FR" country_choices).
  { simpl. intros [H|[H|[H|[]]]]; discriminate H. }
  exact (proj1 (compute_aqi_unknown_country aqipy_sample 11%float 21%float "FR" Hn)).
Defined.

(** ** Window capacity outside the supported range *)

Lemma get_aqi_interval_values (c : string) :
  get_aqi_interval c = 86400 \/ get_aqi_interval c = 3600 \/ get_aqi_interval c = -1.
Proof.
  unfold get_aqi_interval.
  destruct (tuple_contains _ c); [auto|].
  destruct (str_contains "EU" c); auto.
Qed.

Lemma div_pos_neg (x d : Z) : 0 < x -> d < 0 -> x / d <= 0.
Proof.
  intros Hx Hd. rewrite <- (Z.div_opp_opp x d) by lia.
  apply Z.lt_le_incl, Z.div_lt_upper_bound; lia.
Qed.

Lemma div_minus_one (d : Z) : d <> 0 -> -1 / d <= 1.
Proof.
  intros Hd. assert (d < 0 \/ 0 < d) as [Hn|Hp] by lia.
  - rewrite <- (Z.div_opp_opp (-1) d) by lia. change (- -1) with 1.
    destruct (Z.eq_dec d (-1)) as [->|Hne]; [reflexivity|].
    rewrite Z.div_small by lia. lia.
  - assert (-1 / d < 0); [|lia]. apply Z.div_lt_upper_bound; lia.
Qed.

(** X6: the capacity computation fails only for a delay of 0, with
    ZeroDivisionError, and start-up then ends before the windows exist; for
    every other delay and every country text it yields a capacity of at
    least 1, which is exactly 1 when the delay is negative or the country
    has no averaging interval. *)
Theorem num_measures_total (a : args) (w : world) :
  (delay a = 0 ->
   num_measures (country a) (delay a) = inl ZeroDivisionError /\
   startup a w = (inl ZeroDivisionError, w)) /\
  (delay a <> 0 ->
   exists n, num_measures (country a) (delay a) = inr n /\ 1 <= n /\
             fst (startup a w) = inr tt /\
             maxlen (dequeue_pm25 (snd (startup a w))) = Z.to_nat n /\
             maxlen (dequeue_pm10 (snd (startup a w))) = Z.to_nat n) /\
  (delay a < 0 -> num_measures (country a) (delay a) = inr 1) /\
  (get_aqi_interval (country a) = -1 -> delay a <> 0 ->
   num_measures (country a) (delay a) = inr 1).
Proof.
  unfold num_measures.
  repeat split.
  - now rewrite H.
  - unfold startup, num_measures. rewrite bind_run. unfold lift. now rewrite H.
  - intros Hd. destruct (Z.eqb_spec (delay a) 0) as [E|_]; [contradiction|].
    eexists. split; [reflexivity|].
    split; [destruct (Z.leb_spec (get_aqi_interval (country a) / delay a) 0); lia|].
    unfold startup, num_measures, bind, lift.
    destruct (Z.eqb_spec (delay a) 0) as [E|_]; [contradiction|].
    simpl. destruct (prometheus a); repeat split.
  - intros Hd. destruct (Z.eqb_spec (delay a) 0) as [E|_]; [lia|].
    f_equal.
    destruct (Z.leb_spec (get_aqi_interval (country a) / delay a) 0) as [_|Hpos];
      [reflexivity|].
    destruct (get_aqi_interval_values (country a)) as [E|[E|E]]; rewrite E in *.
    + pose proof (div_pos_neg 86400 (delay a)). lia.
    + pose proof (div_pos_neg 3600 (delay a)). lia.
    + pose proof (div_minus_one (delay a)). lia.
  - intros Hi Hd. destruct (Z.eqb_spec (delay a) 0) as [E|_]; [contradiction|].
    f_equal. rewrite Hi.
    destruct (Z.leb_spec (-1 / delay a) 0) as [_|Hpos]; [reflexivity|].
    pose proof (div_minus_one (delay a) Hd). lia.
Qed.

Lemma num_measures_total_witness :
  num_measures "FR" (-5) = inr 1 /\ num_measures "US" 0 = inl ZeroDivisionError.
Proof.
  pose (a := {| arg_bind := "0.0.0.0"; arg_port := 8000; country := "FR";
                delay := -5; log := None; measures := 3;
                mqtt_hostname := None; mqtt_port := 1883;
                mqtt_base_topic := "sds011"; omnia_leds := false;
                sensor_path := "/dev/ttyUSB0"; sensor_operation_delay := 1;
                sensor_start_delay := 5; prometheus := false |}).
  pose (b := {| arg_bind := "0.0.0.0"; arg_port := 8000; country := "US";
                delay := 0; log := None; measures := 3;
                mqtt_hostname := None; mqtt_port := 1883;
                mqtt_base_topic := "sds011"; omnia_leds := false;
                sensor_path := "/dev/ttyUSB0"; sensor_operation_delay := 1;
                sensor_start_delay := 5; prometheus := false |}).
  split.
  - apply (proj1 (proj2 (proj2 (num_measures_total a (boot []))))). simpl. lia.
  - apply (proj1 (num_measures_total b (boot []))). reflexivity.
Defined.

(** ** Topic prefix *)

(** X7: stripping the topic prefix twice is stripping it once, and the
    prefixes the rule leaves as they are are exactly those that do not end
    in a slash. *)
Theorem mqtt_topic_idempotent (base : string) :
  mqtt_topic (mqtt_topic base) = mqtt_topic base /\
  (mqtt_topic base = base <-> endswith base "/" = false).
Proof.
  split.
  - rewrite !mqtt_topic_rstrip. apply rstrip_fixed, rstrip_no_trailing.
  - split.
    + intros E. rewrite <- E, mqtt_topic_rstrip. apply rstrip_no_trailing.
    + intros E. unfold mqtt_topic. now rewrite E.
Qed.

(** ** The sampler, step by step *)

Lemma slept_app (a b : list event) : slept (a ++ b) = slept a + slept b.
Proof.
  induction a as [|e a IH]; simpl; [reflexivity|].
  destruct e; rewrite IH; lia.
Qed.

Lemma slept_repeat (s : Z) (n : nat) : slept (repeat (Slept s) n) = Z.of_nat n * s.
Proof.
  induction n as [|n IH]; [reflexivity|].
  cbn [repeat slept fold_right]. fold (slept (repeat (Slept s) n)). rewrite IH. lia.
Qed.

(** X8: a measurement the sensor answers in full makes exactly measures + 2
    driver calls, sleeps the start delay once and the operation delay once
    after each query and once after the sleep command, so start_delay +
    (measures + 1) * operation_delay seconds in all, makes the four metric
    calls last, and leaves the windows alone. *)
Theorem sampler_schedule (k sd od : Z) (xs : list (float * float)) (r0 r1 : float * float)
    (rest : list (option (float * float))) (w : world) :
  1 <= k ->
  List.length xs = Z.to_nat k ->
  0 <= sd ->
  0 <= od ->
  sensor w = (Some r0 :: map Some xs ++ Some r1 :: rest)%list ->
  exists evs,
    trace (snd (get_data k sd od w)) = (trace w ++ evs)%list /\
    evs = (Slept sd :: repeat (Slept od) (Z.to_nat k)
           ++ Slept od
           :: metric_events (py_round1 (mean (map fst xs)),
                             py_round1 (mean (map snd xs))))%list /\
    slept evs = sd + (k + 1) * od /\
    sensor (snd (get_data k sd od w)) = rest /\
    same_deques w (snd (get_data k sd od w)).
Proof.
  intros Hk Hlen Hsd Hod Hs.
  rewrite (get_data_run k sd od xs r0 r1 rest w Hk Hlen Hsd Hod Hs).
  cbn [snd trace sensor]. eexists. split; [reflexivity|].
  rewrite Hlen. split; [reflexivity|]. split; [|split; [reflexivity | split; reflexivity]].
  change (Slept sd :: ?l) with ([Slept sd] ++ l)%list.
  rewrite slept_app, slept_app, slept_repeat. simpl. rewrite Z2Nat.id by lia. lia.
Qed.

Lemma sampler_schedule_witness :
  exists evs,
    trace (snd (get_data 3 5 1 (started 1 script_one_cycle))) = ([] ++ evs)%list /\
    evs = (Slept 5 :: repeat (Slept 1) (Z.to_nat 3)
           ++ Slept 1
           :: metric_events
                (py_round1 (mean (map fst [(10, 20); (12, 22); (11, 21)]%float)),
                 py_round1 (mean (map snd [(10, 20); (12, 22); (11, 21)]%float))))%list /\
    slept evs = 5 + (3 + 1) * 1 /\
    sensor (snd (get_data 3 5 1 (started 1 script_one_cycle))) = [] /\
    same_deques (started 1 script_one_cycle)
      (snd (get_data 3 5 1 (started 1 script_one_cycle))).
Proof.
  assert (H1 : 1 <= 3) by lia.
  assert (H2 : 0 <= 5) by lia.
  assert (H3 : 0 <= 1) by lia.
  exact (sampler_schedule 3 5 1
           [(10, 20); (12, 22); (11, 21)]%float
           (0, 0)%float (0, 0)%float [] (started 1 script_one_cycle)
           H1 eq_refl H2 H3 eq_refl).
Defined.


(** For a negative sample count down to -10000 the reading is the zero
    -0.0: 0.0 divided by a negative number, rounded. *)
Lemma negative_count_reading (m : Z) :
  -10000 <= m < 0 -> py_round1 (0 / float_of_Z m) = (-0)%float.
Proof.
  intros Hm.
  assert (A : forallb (fun k => is_negative_zero (py_round1 (0 / float_of_Z k)))
                negative_counts = true) by (vm_compute; reflexivity).
  rewrite forallb_forall in A.
  assert (I : In m negative_counts).
  { unfold negative_counts. apply in_map_iff.
    exists (Z.to_nat (- m) - 1)%nat. split; [lia | apply in_seq; lia]. }
  specialize (A m I). unfold is_negative_zero in A.
  apply Prim2SF_inj.
  destruct (Prim2SF (py_round1 (0 / float_of_Z m))) as [[|]|[|]| |s p e];
    try discriminate A.
  reflexivity.
Qed.

(** X9: with a sample count of 0 the sampler wakes the sensor, waits, and
    ends in ZeroDivisionError: no metric call is made and the sensor is not
    sent back to sleep. With a negative count it makes no query at all and
    reports round(0.0 / measures, 1) for both components, which it also
    hands to the metrics: the zero -0.0, for every count down to -10000 at
    the least. *)
Theorem sampler_without_samples (m sd od : Z) (r0 r1 : float * float)
    (rest : list (option (float * float))) (w : world) :
  m <= 0 ->
  0 <= sd ->
  0 <= od ->
  sensor w = (Some r0 :: Some r1 :: rest)%list ->
  (m = 0 ->
   get_data m sd od w
   = (inl ZeroDivisionError,
      {| sensor := Some r1 :: rest; dequeue_pm25 := dequeue_pm25 w;
         dequeue_pm10 := dequeue_pm10 w;
         trace := (trace w ++ [Slept sd])%list |})) /\
  (m < 0 ->
   get_data m sd od w
   = (inr (py_round1 (0 / float_of_Z m), py_round1 (0 / float_of_Z m))%float,
      {| sensor := rest; dequeue_pm25 := dequeue_pm25 w;
         dequeue_pm10 := dequeue_pm10 w;
         trace := (trace w ++ Slept sd :: Slept od
                   :: metric_events (py_round1 (0 / float_of_Z m),
                                     py_round1 (0 / float_of_Z m))%float)%list |})) /\
  (-10000 <= m < 0 ->
   fst (get_data m sd od w) = inr (-0, -0)%float /\
   metrics (snd (get_data m sd od w))
   = (metrics w ++ metric_events (-0, -0)%float)%list).
Proof.
  intros Hm Hsd Hod Hs.
  assert (Hn : Z.to_nat m = O) by lia.
  assert (P : forall k : float * float -> M (float * float),
             bind (sensor_sleep false)
               (fun _ => bind (time_sleep sd)
                  (fun _ => bind (query_loop (Z.to_nat m) od (0, 0)%float) k)) w
             = k (0, 0)%float
                 {| sensor := Some r1 :: rest; dequeue_pm25 := dequeue_pm25 w;
                    dequeue_pm10 := dequeue_pm10 w;
                    trace := (trace w ++ [Slept sd])%list |}).
  { intros k. rewrite bind_run. unfold sensor_sleep. rewrite bind_run.
    unfold sensor_call. rewrite Hs. unfold ret at 1.
    rewrite bind_run. unfold time_sleep.
    destruct (Z.ltb_spec sd 0) as [H|_]; [lia|]. unfold emit.
    rewrite bind_run, Hn. reflexivity. }
  assert (N : m < 0 ->
              get_data m sd od w
              = (inr (py_round1 (0 / float_of_Z m), py_round1 (0 / float_of_Z m))%float,
                 {| sensor := rest; dequeue_pm25 := dequeue_pm25 w;
                    dequeue_pm10 := dequeue_pm10 w;
                    trace := (trace w ++ Slept sd :: Slept od
                              :: metric_events (py_round1 (0 / float_of_Z m),
                                                py_round1 (0 / float_of_Z m))%float)%list |})).
  2: { split; [|split; [exact N|]].
       - intros ->. unfold get_data. rewrite P. reflexivity.
       - intros Hr. rewrite (N (proj2 Hr)), (negative_count_reading m Hr).
         cbn [fst snd trace]. split; [reflexivity|].
         unfold metrics. cbn [trace]. rewrite filter_app. reflexivity. }
  unfold get_data. rewrite P. cbv beta iota.
  - intros Hneg. unfold float_div.
    destruct (Z.eqb_spec m 0) as [H|_]; [lia|].
    rewrite bind_run. unfold ret at 1. rewrite bind_run. unfold ret at 1.
    rewrite bind_run. unfold sensor_sleep. rewrite bind_run.
    unfold sensor_call. cbn [sensor]. unfold ret at 1.
    rewrite bind_run. unfold time_sleep.
    destruct (Z.ltb_spec od 0) as [H|_]; [lia|].
    unfold bind, emit, ret, metric_events.
    cbn [sensor dequeue_pm25 dequeue_pm10 trace fst snd].
    repeat rewrite <- app_assoc. reflexivity.
Qed.

Lemma sampler_without_samples_witness :
  fst (get_data 0 5 1 (started 1 script_one_cycle)) = inl ZeroDivisionError /\
  fst (get_data (-2) 5 1 (started 1 script_one_cycle)) = inr (-0, -0)%float.
Proof.
  assert (H0 : 0 <= 0) by lia.
  assert (Hm : -2 <= 0) by lia.
  assert (H2 : 0 <= 5) by lia.
  assert (H3 : 0 <= 1) by lia.
  split.
  - exact (f_equal fst
             (proj1 (sampler_without_samples 0 5 1 _ _ _
                       (started 1 script_one_cycle) H0 H2 H3 eq_refl) eq_refl)).
  - assert (Hn : -2 < 0) by lia.
    exact (f_equal fst
             (proj1 (proj2 (sampler_without_samples (-2) 5 1 _ _ _
                              (started 1 script_one_cycle) Hm H2 H3 eq_refl)) Hn)).
Defined.

(** ** Driver calls *)

Lemma driver_calls_refl (w : world) : driver_calls 0 w w.
Proof. exists []. split; [reflexivity | simpl; lia]. Qed.

Lemma driver_calls_trans (n m : nat) (w1 w2 w3 : world) :
  driver_calls n w1 w2 -> driver_calls m w2 w3 -> driver_calls (n + m) w1 w3.
Proof.
  intros (a & Ha & La) (b & Hb & Lb). exists (a ++ b)%list. split.
  - now rewrite Ha, Hb, app_assoc.
  - rewrite length_app. lia.
Qed.

Lemma driver_calls_weaken (n m : nat) (w w' : world) :
  (n <= m)%nat -> driver_calls n w w' -> driver_calls m w w'.
Proof. intros H (a & Ha & La). exists a. split; [assumption | lia]. Qed.

Lemma calls_silent {A} (m : M A) :
  (forall w, sensor (snd (m w)) = sensor w) -> calls_at_most 0 m.
Proof.
  intros H w. exists []. split; [now rewrite H | simpl; lia].
Qed.

Lemma calls_bind {A B} (n n' : nat) (m : M A) (k : A -> M B) :
  calls_at_most n m -> (forall a, calls_at_most n' (k a)) ->
  calls_at_most (n + n') (bind m k).
Proof.
  intros Hm Hk w. rewrite bind_run. specialize (Hm w).
  destruct (m w) as [[e|a] w1]; simpl in *.
  - eapply driver_calls_weaken; [|exact Hm]. lia.
  - eapply driver_calls_trans; [exact Hm | apply Hk].
Qed.

Lemma calls_bind0 {A B} (n : nat) (m : M A) (k : A -> M B) :
  calls_at_most 0 m -> (forall a, calls_at_most n (k a)) ->
  calls_at_most n (bind m k).
Proof. intros Hm Hk. exact (calls_bind 0 n m k Hm Hk). Qed.

Lemma calls_sensor_call : calls_at_most 1 sensor_call.
Proof.
  intros w. unfold sensor_call. destruct (sensor w) as [|[r|] rest] eqn:E; simpl.
  - exists []. split; [now rewrite E | simpl; lia].
  - exists [Some r]. split; [now rewrite E | simpl; lia].
  - exists [None]. split; [now rewrite E | simpl; lia].
Qed.

Lemma calls_sensor_sleep (b : bool) : calls_at_most 1 (sensor_sleep b).
Proof.
  unfold sensor_sleep. change 1%nat with (1 + 0)%nat.
  apply calls_bind; [apply calls_sensor_call | intros; now apply calls_silent].
Qed.

Lemma calls_time_sleep (s : Z) : calls_at_most 0 (time_sleep s).
Proof.
  apply calls_silent. intros w. unfold time_sleep. now destruct (s <? 0).
Qed.

Lemma calls_float_div (x : float) (n : Z) : calls_at_most 0 (float_div x n).
Proof.
  apply calls_silent. intros w. unfold float_div. now destruct (n =? 0).
Qed.

Lemma calls_emit (e : event) : calls_at_most 0 (emit e).
Proof. now apply calls_silent. Qed.

Lemma calls_query_loop (n : nat) (od : Z) (acc : float * float) :
  calls_at_most n (query_loop n od acc).
Proof.
  revert acc; induction n as [|n IH]; intros acc; simpl.
  - now apply calls_silent.
  - change (S n) with (1 + n)%nat.
    apply calls_bind; [apply calls_sensor_call | intros x].
    apply calls_bind0; [apply calls_time_sleep | intros _; apply IH].
Qed.

Lemma calls_get_data (k sd od : Z) :
  calls_at_most (Z.to_nat k + 2) (get_data k sd od).
Proof.
  unfold get_data.
  replace (Z.to_nat k + 2)%nat with (1 + (Z.to_nat k + 1))%nat by lia.
  apply calls_bind; [apply calls_sensor_sleep | intros _].
  apply calls_bind0; [apply calls_time_sleep | intros _].
  apply calls_bind; [apply calls_query_loop | intros [s25 s10]].
  apply calls_bind0; [apply calls_float_div | intros q25].
  apply calls_bind0; [apply calls_float_div | intros q10].
  change 1%nat with (1 + 0)%nat.
  apply calls_bind; [apply calls_sensor_sleep | intros _].
  apply calls_bind0; [apply calls_time_sleep | intros _].
  repeat (apply calls_bind0; [apply calls_emit | intros _]).
  now apply calls_silent.
Qed.

Ltac calls0 :=
  repeat first
    [ apply calls_emit
    | apply calls_time_sleep
    | solve [apply calls_silent; reflexivity]
    | apply calls_bind0; [| intros ?]
    | match goal with
      | |- calls_at_most _ (match ?x with _ => _ end) => destruct x
      | |- calls_at_most _ (if ?b then _ else _) => destruct b
      end ].

(** X10: whatever the sensor answers and however a cycle ends, the cycle
    makes at most measures + 2 driver calls (a negative sample count
    counting as 0), all of them inside the sampler,
    and takes the replies in order from the front of what the sensor has to
    say; a loop of n cycles makes at most n * (measures + 2). *)
Theorem driver_calls_bounded (lib : aqipy) (omnia : bool) (a : args) (n : nat) (w : world) :
  driver_calls (Z.to_nat (measures a) + 2) w
    (snd (get_data (measures a) (sensor_start_delay a) (sensor_operation_delay a) w)) /\
  driver_calls (Z.to_nat (measures a) + 2) w (snd (cycle lib omnia a w)) /\
  driver_calls (n * (Z.to_nat (measures a) + 2)) w (snd (main_loop lib omnia a n w)).
Proof.
  assert (Hc : calls_at_most (Z.to_nat (measures a) + 2) (cycle lib omnia a)).
  { unfold cycle.
    replace (Z.to_nat (measures a) + 2)%nat
      with (Z.to_nat (measures a) + 2 + 0)%nat by lia.
    apply calls_bind; [apply calls_get_data | intros [p25 p10]].
    unfold save_log, publish_mqtt, set_turris_omnia_led, set_led, open_w,
      color_plus_newline, lift, raise, ret.
    calls0. }
  split; [apply calls_get_data|]. split; [apply Hc|].
  revert w. induction n as [|n IH]; intros w.
  - apply driver_calls_refl.
  - simpl main_loop. rewrite bind_run.
    pose proof (Hc w) as H1.
    destruct (cycle lib omnia a w) as [[e|[]] w1]; simpl in *.
    + eapply driver_calls_weaken; [|exact H1]. lia.
    + eapply driver_calls_trans; [exact H1 | apply IH].
Qed.

(** ** The windows across cycles *)

Lemma preserves_deques_silent {A} (m : M A) :
  (forall w, dequeue_pm25 (snd (m w)) = dequeue_pm25 w /\
             dequeue_pm10 (snd (m w)) = dequeue_pm10 w) ->
  preserves same_deques m.
Proof. intros H w. exact (H w). Qed.

Ltac pres_deques :=
  pres_with ltac:(first [ apply preserves_emit_deques
                        | solve [apply preserves_deques_silent; intros; split; reflexivity] ]).

(** Whatever its outcome, a cycle whose measurement fails leaves the
    windows as they were, and a cycle whose measurement succeeds has pushed
    the reading into both. *)
Lemma cycle_deques (lib : aqipy) (omnia : bool) (a : args) (w : world) :
  match get_data (measures a) (sensor_start_delay a) (sensor_operation_delay a) w with
  | (inl _, _) => same_deques w (snd (cycle lib omnia a w))
  | (inr pm, _) =>
      dequeue_pm25 (snd (cycle lib omnia a w)) = deque_append (dequeue_pm25 w) (fst pm) /\
      dequeue_pm10 (snd (cycle lib omnia a w)) = deque_append (dequeue_pm10 w) (snd pm)
  end.
Proof.
  pose proof (get_data_spec (measures a) (sensor_start_delay a)
                (sensor_operation_delay a) w) as Hg.
  unfold cycle. rewrite bind_run.
  destruct (get_data (measures a) (sensor_start_delay a)
              (sensor_operation_delay a) w) as [[e|[p25 p10]] w1].
  - exact (proj1 Hg).
  - destruct Hg as (w0 & [[H25 H10] _] & ->).
    rewrite bind_run. unfold dequeue_pm25_append at 1. cbv beta iota.
    rewrite bind_run. unfold dequeue_pm10_append at 1. cbv beta iota.
    match goal with
    | |- dequeue_pm25 (snd (?rest ?w2)) = _ /\ _ =>
        assert (Hr : preserves same_deques rest)
          by (unfold save_log, publish_mqtt, set_turris_omnia_led, set_led,
                open_w, color_plus_newline; pres_deques);
        destruct (Hr w2) as [R25 R10]
    end.
    split; [etransitivity; [exact R25|] | etransitivity; [exact R10|]];
      simpl; congruence.
Qed.

Lemma windows_ok_push (w w' : world) (p25 p10 : float) :
  windows_ok w ->
  dequeue_pm25 w' = deque_append (dequeue_pm25 w) p25 ->
  dequeue_pm10 w' = deque_append (dequeue_pm10 w) p10 ->
  windows_ok w'.
Proof.
  intros (Hm & Hl & Hb) E25 E10. unfold windows_ok.
  rewrite E25, E10, !deque_append_length. simpl.
  rewrite <- Hm, <- Hl.
  destruct (Nat.ltb_spec (maxlen (dequeue_pm25 w))
              (List.length (items (dequeue_pm25 w)) + 1)); repeat split; lia.
Qed.

Lemma windows_ok_cycle (lib : aqipy) (omnia : bool) (a : args) (w : world) :
  windows_ok w ->
  windows_ok (snd (cycle lib omnia a w)) /\
  maxlen (dequeue_pm25 (snd (cycle lib omnia a w))) = maxlen (dequeue_pm25 w).
Proof.
  intros Hw. pose proof (cycle_deques lib omnia a w) as H.
  destruct (get_data (measures a) (sensor_start_delay a)
              (sensor_operation_delay a) w) as [[e|[p25 p10]] w1].
  - destruct H as [H25 H10]. unfold windows_ok. rewrite H25, H10.
    split; [exact Hw | reflexivity].
  - destruct H as [H25 H10]. split.
    + eapply windows_ok_push; eassumption.
    + rewrite H25. reflexivity.
Qed.

(** X11: start-up leaves two empty windows of one capacity, and from then
    on, after any number of cycles and however the last one ended, both
    windows still have that capacity, hold the same number of readings, and
    hold no more than the capacity. *)
Theorem windows_invariant (lib : aqipy) (omnia : bool) (a : args) (n : nat) (w : world) :
  windows_ok w ->
  windows_ok (snd (main_loop lib omnia a n w)) /\
  maxlen (dequeue_pm25 (snd (main_loop lib omnia a n w))) = maxlen (dequeue_pm25 w) /\
  (forall w0, fst (startup a w0) = inr tt -> windows_ok (snd (startup a w0))).
Proof.
  intros Hw. rewrite <- and_assoc. split.
  - revert w Hw. induction n as [|n IH]; intros w Hw.
    + split; [exact Hw | reflexivity].
    + simpl main_loop. rewrite bind_run.
      destruct (windows_ok_cycle lib omnia a w Hw) as [Hc Hm].
      destruct (cycle lib omnia a w) as [[e|[]] w1]; simpl in *.
      * split; assumption.
      * destruct (IH w1 Hc) as [H1 H2]. split; [exact H1 | congruence].
  - intros w0. unfold startup. rewrite bind_run. unfold lift.
    destruct (num_measures (country a) (delay a)) as [e|k]; [discriminate|].
    intros _. rewrite bind_run. unfold create_deques.
    destruct (prometheus a); unfold windows_ok; simpl; repeat split; lia.
Qed.

Lemma windows_invariant_witness :
  windows_ok (snd (main_loop aqipy_sample true args_defaults 2
                     (started 1 (script_one_cycle ++ script_one_cycle)))).
Proof.
  assert (H : windows_ok (started 1 (script_one_cycle ++ script_one_cycle))).
  { unfold windows_ok. simpl. repeat split; lia. }
  exact (proj1 (windows_invariant aqipy_sample true args_defaults 2 _ H)).
Defined.

(** ** How a cycle can fail *)

Lemma raises_ret {A} (E : exn -> Prop) (a : A) : raises_only E (ret a).
Proof. intros w e w' H. discriminate H. Qed.

Lemma raises_raise {A} (E : exn -> Prop) (e : exn) : E e -> raises_only E (@raise A e).
Proof. intros He w e' w' H. injection H as <- _. exact He. Qed.

Lemma raises_lift {A} (E : exn -> Prop) (r : exn + A) :
  (forall e, r = inl e -> E e) -> raises_only E (lift r).
Proof. intros Hr w e w' H. injection H as H _. now apply Hr. Qed.

Lemma raises_emit (E : exn -> Prop) (e : event) : raises_only E (emit e).
Proof. intros w e' w' H. discriminate H. Qed.

Lemma raises_bind {A B} (E : exn -> Prop) (m : M A) (k : A -> M B) :
  raises_only E m -> (forall a, raises_only E (k a)) -> raises_only E (bind m k).
Proof.
  intros Hm Hk w e w' H. apply bind_inv in H.
  destruct H as [(e0 & H & He)|(a & w1 & _ & H)].
  - injection He as ->. eapply Hm, H.
  - eapply Hk, H.
Qed.

Lemma raises_sensor_call (E : exn -> Prop) : E SensorError -> raises_only E sensor_call.
Proof.
  intros He w e w' H. unfold sensor_call in H.
  destruct (sensor w) as [|[r|] rest]; try discriminate H;
    injection H as <- _; exact He.
Qed.

Lemma raises_sensor_sleep (E : exn -> Prop) (b : bool) :
  E SensorError -> raises_only E (sensor_sleep b).
Proof.
  intros He. apply raises_bind; [now apply raises_sensor_call | intros; apply raises_ret].
Qed.

Lemma raises_time_sleep (E : exn -> Prop) (s : Z) :
  E ValueError -> raises_only E (time_sleep s).
Proof.
  intros He w e w' H. unfold time_sleep in H.
  destruct (s <? 0); [injection H as <- _; exact He | discriminate H].
Qed.

Lemma raises_float_div (E : exn -> Prop) (x : float) (n : Z) :
  n <> 0 -> raises_only E (float_div x n).
Proof.
  intros Hn w e w' H. unfold float_div in H.
  destruct (Z.eqb_spec n 0); [contradiction | discriminate H].
Qed.

Lemma raises_query_loop (E : exn -> Prop) (n : nat) (od : Z) (acc : float * float) :
  E SensorError -> E ValueError -> raises_only E (query_loop n od acc).
Proof.
  intros Hs Hv. revert acc; induction n as [|n IH]; intros acc; simpl.
  - apply raises_ret.
  - apply raises_bind; [now apply raises_sensor_call | intros x].
    apply raises_bind; [now apply raises_time_sleep | intros _; apply IH].
Qed.

(** With a sample count other than 0 the sampler fails only through the
    sensor or through a negative delay. *)
Lemma raises_get_data (E : exn -> Prop) (k sd od : Z) :
  k <> 0 -> E SensorError -> E ValueError -> raises_only E (get_data k sd od).
Proof.
  intros Hk Hs Hv. unfold get_data.
  apply raises_bind; [now apply raises_sensor_sleep | intros _].
  apply raises_bind; [now apply raises_time_sleep | intros _].
  apply raises_bind; [now apply raises_query_loop | intros [s25 s10]].
  apply raises_bind; [now apply raises_float_div | intros q25].
  apply raises_bind; [now apply raises_float_div | intros q10].
  apply raises_bind; [now apply raises_sensor_sleep | intros _].
  apply raises_bind; [now apply raises_time_sleep | intros _].
  repeat (apply raises_bind; [apply raises_emit | intros _]).
  apply raises_ret.
Qed.

Lemma led_colors_errors (lvl : level_obj) (c : string) (e : exn) :
  led_colors lvl c = inl e -> e = TypeError \/ e = KeyError.
Proof.
  unfold led_colors, level_subscript.
  destruct lvl as [s|d].
  - intros H. injection H as <-. now left.
  - destruct (dict_get d "level"); [discriminate|].
    intros H. injection H as <-. now right.
Qed.

Lemma raises_led_step (E : exn -> Prop) (omnia : bool) (c : string) (lvl : level_obj) :
  E TypeError -> E KeyError -> E OSError ->
  raises_only E
    ('(color_aqi_pm25, color_aqi_pm10) <- lift (led_colors lvl c) ;;
     set_turris_omnia_led omnia color_aqi_pm25 color_aqi_pm10).
Proof.
  intros Ht Hk Ho.
  assert (Hopen : forall path, raises_only E (open_w omnia path)).
  { intros path. unfold open_w.
    destruct omnia; [apply raises_emit | now apply raises_raise]. }
  assert (Hled : forall au co c0, raises_only E (set_led omnia au co c0)).
  { intros au co c0. unfold set_led, color_plus_newline.
    destruct (color_ne_empty c0); [|apply raises_ret].
    apply raises_bind; [apply Hopen | intros _].
    apply raises_bind; [apply raises_emit | intros _].
    apply raises_bind; [apply Hopen | intros _].
    apply raises_bind; [|intros; apply raises_emit].
    destruct c0; [apply raises_ret | now apply raises_raise]. }
  apply raises_bind.
  - apply raises_lift. intros e He. apply led_colors_errors in He.
    destruct He as [->| ->]; assumption.
  - intros [c1 c2]. unfold set_turris_omnia_led.
    apply raises_bind; [apply Hled | intros _; apply Hled].
Qed.

(** X12: with a sample count other than 0 and windows of capacity at least
    1 no cycle ends in ZeroDivisionError: the sampler divides by the sample
    count, and each window average is taken after the push, on a window
    that holds at least the reading just pushed. *)
Theorem cycle_no_zero_division (lib : aqipy) (omnia : bool) (a : args)
    (w w' : world) (e : exn) :
  measures a <> 0 ->
  (1 <= maxlen (dequeue_pm25 w))%nat ->
  (1 <= maxlen (dequeue_pm10 w))%nat ->
  cycle lib omnia a w = (inl e, w') ->
  e <> ZeroDivisionError.
Proof.
  intros Hm H25 H10 H.
  set (E := fun e : exn => e <> ZeroDivisionError).
  change (E e).
  assert (Hs : E SensorError) by discriminate.
  assert (Hv : E ValueError) by discriminate.
  unfold cycle in H. apply bind_inv in H.
  destruct H as [(e0 & Eg & He)|([p25 p10] & w1 & Eg & H)].
  - injection He as ->.
    exact (raises_get_data _ _ _ _ Hm Hs Hv _ _ _ Eg).
  - pose proof (get_data_spec (measures a) (sensor_start_delay a)
                  (sensor_operation_delay a) w) as Hg.
    rewrite Eg in Hg. destruct Hg as (w0 & [[D25 D10] _] & Hw1).
    assert (E25 : dequeue_pm25 w1 = dequeue_pm25 w) by (rewrite Hw1; exact D25).
    assert (E10 : dequeue_pm10 w1 = dequeue_pm10 w) by (rewrite Hw1; exact D10).
    apply bind_inv in H.
    destruct H as [(e0 & E2 & _)|([] & w2 & E2 & H)]; [discriminate E2|].
    apply bind_inv in H.
    destruct H as [(e0 & E3 & _)|([] & w3 & E3 & H)]; [discriminate E3|].
    unfold dequeue_pm25_append in E2. injection E2 as <-.
    unfold dequeue_pm10_append in E3. injection E3 as <-.
    apply bind_inv in H.
    destruct H as [(e0 & E4 & _)|(avg25 & w4 & E4 & H)].
    { unfold average_pm25 in E4. simpl in E4.
      rewrite deque_average_append in E4 by (rewrite E25; exact H25).
      discriminate E4. }
    apply bind_inv in H.
    destruct H as [(e0 & E5 & _)|(avg10 & w5 & E5 & H)].
    { unfold average_pm25 in E4. injection E4 as _ <-.
      unfold average_pm10 in E5. simpl in E5.
      rewrite deque_average_append in E5 by (rewrite E10; exact H10).
      discriminate E5. }
    destruct (compute_aqi lib avg25 avg10 (country a)) as [[aqi data] lvl].
    refine (raises_bind E _ _ _ _ _ _ _ H).
    + destruct (omnia_leds a);
        [apply raises_led_step; discriminate | apply raises_ret].
    + intros _. apply raises_bind; [|intros _].
      * destruct (log a); [apply raises_emit | apply raises_ret].
      * apply raises_bind; [|intros _; now apply raises_time_sleep].
        destruct (mqtt_hostname a); [apply raises_emit | apply raises_ret].
Qed.

Lemma cycle_no_zero_division_witness :
  fst (cycle aqipy_sample false args_all_sinks (started 1 script_one_cycle))
  = inl OSError /\
  OSError <> ZeroDivisionError.
Proof.
  assert (Hm : measures args_all_sinks <> 0) by (simpl; lia).
  assert (H1 : (1 <= maxlen (dequeue_pm25 (started 1 script_one_cycle)))%nat)
    by (simpl; lia).
  assert (H2 : (1 <= maxlen (dequeue_pm10 (started 1 script_one_cycle)))%nat)
    by (simpl; lia).
  split; [reflexivity|].
  exact (cycle_no_zero_division aqipy_sample false args_all_sinks
           (started 1 script_one_cycle)
           (snd (cycle aqipy_sample false args_all_sinks (started 1 script_one_cycle)))
           OSError Hm H1 H2 eq_refl).
Defined.

(** ** Cycles that run to their end *)

Lemma only_files_app (a b : list event) :
  only_files a -> only_files b -> only_files (a ++ b).
Proof. unfold only_files. intros Ha Hb. now rewrite forallb_app, Ha, Hb. Qed.

(** The LED sink on one color, when it does not raise. *)
Lemma set_led_inr (omnia : bool) (autonomous color : string) (c : pycolor)
    (w w' : world) :
  set_led omnia autonomous color c w = (inr tt, w') ->
  exists evs,
    only_files evs /\
    w' = {| sensor := sensor w; dequeue_pm25 := dequeue_pm25 w;
            dequeue_pm10 := dequeue_pm10 w; trace := (trace w ++ evs)%list |}.
Proof.
  unfold set_led, open_w.
  destruct c as [s|]; simpl.
  - destruct (String.eqb s ""); simpl.
    + intros H; injection H as <-.
      exists []. split; [reflexivity|]. rewrite app_nil_r. now destruct w.
    + destruct omnia; simpl; intros H; [|discriminate H].
      injection H as <-.
      eexists. split; [|rewrite <- !app_assoc; reflexivity]. reflexivity.
  - destruct omnia; intros H; discriminate H.
Qed.

Lemma led_step_inr (omnia : bool) (a : args) (lvl : level_obj) (w w' : world) :
  (if omnia_leds a
   then '(color_aqi_pm25, color_aqi_pm10) <- lift (led_colors lvl (country a)) ;;
        set_turris_omnia_led omnia color_aqi_pm25 color_aqi_pm10
   else ret tt) w = (inr tt, w') ->
  exists evs,
    only_files evs /\
    (omnia_leds a = false -> evs = []) /\
    w' = {| sensor := sensor w; dequeue_pm25 := dequeue_pm25 w;
            dequeue_pm10 := dequeue_pm10 w; trace := (trace w ++ evs)%list |}.
Proof.
  destruct (omnia_leds a).
  - intros H. apply bind_inr in H. destruct H as ([c1 c2] & w1 & E1 & H).
    unfold lift in E1. injection E1 as _ <-.
    unfold set_turris_omnia_led in H.
    apply bind_inr in H. destruct H as ([] & w2 & E2 & H).
    apply set_led_inr in E2. destruct E2 as (e2 & F2 & ->).
    apply set_led_inr in H. destruct H as (e3 & F3 & ->).
    exists (e2 ++ e3)%list. split; [now apply only_files_app|].
    split; [discriminate|]. simpl. now rewrite app_assoc.
  - intros H. injection H as <-. exists []. split; [reflexivity|].
    split; [reflexivity|]. rewrite app_nil_r. now destruct w.
Qed.

Lemma query_loop_inr (n : nat) (od : Z) (acc r : float * float) (w w' : world) :
  query_loop n od acc w = (inr r, w') ->
  trace w' = (trace w ++ repeat (Slept od) n)%list.
Proof.
  revert acc w. induction n as [|n IH]; intros acc w H; simpl in *.
  - injection H as _ <-. now rewrite app_nil_r.
  - apply bind_inr in H. destruct H as (x & w1 & E1 & H).
    apply bind_inr in H. destruct H as ([] & w2 & E2 & H).
    apply IH in H. rewrite H.
    unfold sensor_query, sensor_call in E1.
    destruct (sensor w) as [|[y|] rest]; try discriminate E1.
    injection E1 as _ <-.
    unfold time_sleep in E2. destruct (od <? 0); [discriminate E2|].
    injection E2 as <-. simpl. now rewrite <- app_assoc.
Qed.

(** The events of a measurement that returns a reading. *)
Lemma get_data_inr (k sd od : Z) (pm : float * float) (w w' : world) :
  get_data k sd od w = (inr pm, w') ->
  trace w' = (trace w ++ sampler_sleeps k sd od ++ metric_events pm)%list /\
  k <> 0.
Proof.
  intros H. unfold get_data in H.
  apply bind_inr in H. destruct H as ([] & w1 & E1 & H).
  apply bind_inr in H. destruct H as ([] & w2 & E2 & H).
  apply bind_inr in H. destruct H as ([s25 s10] & w3 & E3 & H).
  apply bind_inr in H. destruct H as (q25 & w4 & E4 & H).
  apply bind_inr in H. destruct H as (q10 & w5 & E5 & H).
  apply bind_inr in H. destruct H as ([] & w6 & E6 & H).
  apply bind_inr in H. destruct H as ([] & w7 & E7 & H).
  assert (T1 : forall b v u, sensor_sleep b v = (inr tt, u) -> trace u = trace v).
  { intros b v u E. unfold sensor_sleep, bind, sensor_call in E.
    destruct (sensor v) as [|[y|] rest]; try discriminate E.
    now injection E as <-. }
  assert (T2 : forall s v u, time_sleep s v = (inr tt, u) ->
                             trace u = (trace v ++ [Slept s])%list).
  { intros s v u E. unfold time_sleep in E.
    destruct (s <? 0); [discriminate E | now injection E as <-]. }
  assert (T3 : forall x v q u, float_div x k v = (inr q, u) -> u = v /\ k <> 0).
  { intros x v q u E. unfold float_div in E.
    destruct (Z.eqb_spec k 0); [discriminate E|].
    injection E as _ <-. now split. }
  apply T1 in E1. apply T2 in E2. apply query_loop_inr in E3.
  apply T3 in E4. destruct E4 as [-> Hk]. apply T3 in E5. destruct E5 as [-> _].
  apply T1 in E6. apply T2 in E7.
  split; [|exact Hk].
  unfold bind, emit, ret in H. injection H as <- <-. simpl.
  rewrite E7, E6, E3, E2, E1. unfold sampler_sleeps, metric_events. simpl.
  repeat rewrite <- app_assoc. reflexivity.
Qed.

(** A cycle that runs to its end, in full: the delay is not negative, the
    measurement returned a reading, both windows received it, and the
    trace grew by the sampler's sleeps, the four metric calls, the LED file
    events, the log line, the publish and the final sleep, in this order. *)
Lemma cycle_inr (lib : aqipy) (omnia : bool) (a : args) (w w' : world) :
  cycle lib omnia a w = (inr tt, w') ->
  0 <= delay a /\
  exists pm led_evs,
    fst (get_data (measures a) (sensor_start_delay a) (sensor_operation_delay a) w)
    = inr pm /\
    dequeue_pm25 w' = deque_append (dequeue_pm25 w) (fst pm) /\
    dequeue_pm10 w' = deque_append (dequeue_pm10 w) (snd pm) /\
    only_files led_evs /\
    (omnia_leds a = false -> led_evs = []) /\
    exists aqi lvl,
      trace w'
      = (trace w
         ++ sampler_sleeps (measures a) (sensor_start_delay a) (sensor_operation_delay a)
         ++ metric_events pm ++ led_evs ++ log_events a pm aqi
         ++ mqtt_events a pm aqi lvl ++ [Slept (delay a)])%list.
Proof.
  intros H.
  pose proof (cycle_deques lib omnia a w) as Hd. rewrite H in Hd. simpl in Hd.
  unfold cycle in H.
  apply bind_inr in H. destruct H as ([p25 p10] & w1 & Eg & H).
  rewrite Eg in Hd. destruct Hd as [D25 D10].
  apply get_data_inr in Eg as Hg. destruct Hg as [Ht1 _].
  apply bind_inr in H. destruct H as ([] & w2 & E2 & H).
  apply bind_inr in H. destruct H as ([] & w3 & E3 & H).
  apply bind_inr in H. destruct H as (avg25 & w4 & E4 & H).
  apply bind_inr in H. destruct H as (avg10 & w5 & E5 & H).
  assert (Ft : trace w5 = trace w1).
  { unfold dequeue_pm25_append in E2. unfold dequeue_pm10_append in E3.
    unfold average_pm25 in E4. unfold average_pm10 in E5.
    injection E2 as <-. injection E3 as <-.
    injection E4 as _ <-. injection E5 as _ <-. reflexivity. }
  destruct (compute_aqi lib avg25 avg10 (country a)) as [[aqi data] lvl].
  apply bind_inr in H. destruct H as ([] & w6 & E6 & H).
  apply bind_inr in H. destruct H as ([] & w7 & E7 & H).
  apply bind_inr in H. destruct H as ([] & w8 & E8 & H).
  apply led_step_inr in E6. destruct E6 as (led_evs & Hf & Hoff & ->).
  assert (T7 : trace w7 = (trace w5 ++ led_evs ++ log_events a (p25, p10) aqi)%list).
  { unfold log_events. destruct (log a); injection E7 as <-; simpl;
      rewrite <- ?app_assoc, ?app_nil_r; reflexivity. }
  assert (T8 : trace w8 = (trace w7 ++ mqtt_events a (p25, p10) aqi lvl)%list).
  { unfold mqtt_events. destruct (mqtt_hostname a); injection E8 as <-; simpl;
      rewrite ?app_nil_r; reflexivity. }
  unfold time_sleep in H. destruct (Z.ltb_spec (delay a) 0) as [|Hdelay]; [discriminate|].
  injection H as <-.
  split; [exact Hdelay|].
  exists (p25, p10), led_evs. rewrite Eg.
  repeat split; try assumption.
  exists aqi, lvl. cbn [trace]. rewrite T8, T7, Ft, Ht1.
  repeat rewrite <- app_assoc. reflexivity.
Qed.

Lemma sampler_sleeps_silent (k sd od : Z) :
  slept (sampler_sleeps k sd od) = sd + (Z.of_nat (Z.to_nat k) + 1) * od /\
  published (sampler_sleeps k sd od) = [] /\
  logged (sampler_sleeps k sd od) = [] /\
  filter is_metric (sampler_sleeps k sd od) = [].
Proof.
  unfold sampler_sleeps.
  change (Slept sd :: ?l) with ([Slept sd] ++ l)%list.
  rewrite !slept_app, slept_repeat, !published_app, !logged_app, !filter_app.
  assert (R : forall n, published (repeat (Slept od) n) = [] /\
                        logged (repeat (Slept od) n) = [] /\
                        filter is_metric (repeat (Slept od) n) = []).
  { induction n as [|n IH]; [now repeat split | exact IH]. }
  destruct (R (Z.to_nat k)) as (R1 & R2 & R3). rewrite R1, R2, R3.
  simpl. repeat split. lia.
Qed.

(** One completed cycle, counted. *)
Lemma cycle_inr_counts (lib : aqipy) (omnia : bool) (a : args) (w w' : world) :
  cycle lib omnia a w = (inr tt, w') ->
  exists evs,
    trace w' = (trace w ++ evs)%list /\
    slept evs = cycle_sleep_seconds a /\
    List.length (published evs) = per_cycle (mqtt_hostname a) 1 /\
    List.length (logged evs) = per_cycle (log a) 1 /\
    List.length (filter is_metric evs) = 4%nat.
Proof.
  intros H. apply cycle_inr in H.
  destruct H as (Hd & pm & led_evs & _ & _ & _ & Hf & _ & aqi & lvl & Ht).
  eexists. split; [exact Ht|].
  destruct (only_files_silent _ Hf) as (L1 & L2 & L3 & L4).
  destruct (sampler_sleeps_silent (measures a) (sensor_start_delay a)
              (sensor_operation_delay a)) as (S1 & S2 & S3 & S4).
  rewrite !slept_app, !published_app, !logged_app, !filter_app, !length_app.
  rewrite L1, L2, L3, L4, S1, S2, S3, S4.
  unfold cycle_sleep_seconds, log_events, mqtt_events, per_cycle.
  destruct (log a), (mqtt_hostname a); simpl; repeat split; lia.
Qed.

(** X13: a loop that has completed n cycles has made, since it started,
    exactly 4 n metric calls, n log lines if a log file is configured and
    none otherwise, n publishes if a broker is configured and none
    otherwise, and has slept n times start_delay + (measures + 1) *
    operation_delay + delay seconds (a negative sample count counting as
    0). *)
Theorem loop_exports_per_cycle (lib : aqipy) (omnia : bool) (a : args) (n : nat) (w w' : world) :
  main_loop lib omnia a n w = (inr tt, w') ->
  exists evs,
    trace w' = (trace w ++ evs)%list /\
    slept evs = Z.of_nat n * cycle_sleep_seconds a /\
    List.length (published evs) = per_cycle (mqtt_hostname a) n /\
    List.length (logged evs) = per_cycle (log a) n /\
    List.length (filter is_metric evs) = (4 * n)%nat.
Proof.
  revert w. induction n as [|n IH]; intros w H.
  - injection H as <-. exists []. rewrite app_nil_r.
    unfold per_cycle. destruct (mqtt_hostname a), (log a); repeat split.
  - simpl main_loop in H. apply bind_inr in H. destruct H as ([] & w1 & Ec & H).
    apply cycle_inr_counts in Ec. destruct Ec as (e1 & T1 & C1 & C2 & C3 & C4).
    apply IH in H. destruct H as (e2 & T2 & D1 & D2 & D3 & D4).
    exists (e1 ++ e2)%list. split; [now rewrite T2, T1, app_assoc|].
    rewrite slept_app, published_app, logged_app, filter_app, !length_app.
    rewrite C1, C2, C3, C4, D1, D2, D3, D4.
    unfold per_cycle. destruct (mqtt_hostname a), (log a); repeat split; lia.
Qed.

Lemma loop_exports_per_cycle_witness :
  exists evs,
    trace (snd (main_loop aqipy_sample true args_all_sinks 1 (started 1 script_one_cycle)))
    = (trace (started 1 script_one_cycle) ++ evs)%list /\
    slept evs = Z.of_nat 1 * cycle_sleep_seconds args_all_sinks /\
    List.length (published evs) = per_cycle (mqtt_hostname args_all_sinks) 1 /\
    List.length (logged evs) = per_cycle (log args_all_sinks) 1 /\
    List.length (filter is_metric evs) = (4 * 1)%nat.
Proof.
  apply (loop_exports_per_cycle aqipy_sample true args_all_sinks 1
           (started 1 script_one_cycle)).
  vm_compute. reflexivity.
Defined.

(** X14: with a negative delay no cycle runs to its end, so the loop ends
    during its first cycle whatever the sensor does. *)
Theorem negative_delay_ends_loop (lib : aqipy) (omnia : bool) (a : args) (n : nat) (w : world) :
  delay a < 0 ->
  fst (cycle lib omnia a w) <> inr tt /\
  fst (main_loop lib omnia a (S n) w) <> inr tt /\
  snd (main_loop lib omnia a (S n) w) = snd (cycle lib omnia a w).
Proof.
  intros Hd.
  assert (Hc : fst (cycle lib omnia a w) <> inr tt).
  { destruct (cycle lib omnia a w) as [[e|[]] w'] eqn:E; [discriminate|].
    apply cycle_inr in E. lia. }
  split; [exact Hc|].
  simpl main_loop. rewrite bind_run.
  destruct (cycle lib omnia a w) as [[e|[]] w']; simpl in *.
  - split; [discriminate | reflexivity].
  - congruence.
Qed.

Lemma negative_delay_ends_loop_witness :
  fst (main_loop aqipy_sample true
         {| arg_bind := "0.0.0.0"; arg_port := 8000; country := "US"; delay := -1;
            log := Some "aqi.csv"; measures := 3; mqtt_hostname := None;
            mqtt_port := 1883; mqtt_base_topic := "sds011"; omnia_leds := false;
            sensor_path := "/dev/ttyUSB0"; sensor_operation_delay := 1;
            sensor_start_delay := 5; prometheus := false |}
         (S 4) (started 1 script_one_cycle)) <> inr tt.
Proof.
  refine (proj1 (proj2 (negative_delay_ends_loop aqipy_sample true _ 4
                          (started 1 script_one_cycle) _))).
  simpl. lia.
Defined.

(** ** Cycles on a sensor that answers *)

Lemma deque_append_maxlen (d : deque) (x : float) : maxlen (deque_append d x) = maxlen d.
Proof. reflexivity. Qed.

(** The loop on a sensor that answers one measurement after the other. *)
Lemma main_loop_on_batches (lib : aqipy) (omnia : bool) (a : args) (bs : list batch)
    (rest : list (option (float * float))) (w : world) :
  1 <= measures a ->
  0 <= sensor_start_delay a ->
  0 <= sensor_operation_delay a ->
  0 <= delay a ->
  (1 <= maxlen (dequeue_pm25 w))%nat ->
  (1 <= maxlen (dequeue_pm10 w))%nat ->
  leds_safe lib omnia a ->
  Forall (fun b => List.length (batch_samples b) = Z.to_nat (measures a)) bs ->
  sensor w = (flat_map batch_script bs ++ rest)%list ->
  fst (main_loop lib omnia a (List.length bs) w) = inr tt /\
  sensor (snd (main_loop lib omnia a (List.length bs) w)) = rest /\
  dequeue_pm25 (snd (main_loop lib omnia a (List.length bs) w))
  = push_all (dequeue_pm25 w) (map (fun b => fst (batch_reading b)) bs) /\
  dequeue_pm10 (snd (main_loop lib omnia a (List.length bs) w))
  = push_all (dequeue_pm10 w) (map (fun b => snd (batch_reading b)) bs).
Proof.
  intros Hk Hsd Hod Hdelay H25 H10 Hsafe Hbs. revert w H25 H10.
  induction Hbs as [|b bs Hb Hbs IH]; intros w H25 H10 Hs.
  - simpl in *. repeat split. exact Hs.
  - destruct b as [[r0 xs] r1]. unfold batch_samples in Hb. simpl in Hb.
    assert (Hs' : sensor w
                  = (Some r0 :: map Some xs
                     ++ Some r1 :: (flat_map batch_script bs ++ rest))%list).
    { rewrite Hs. cbn [flat_map]. unfold batch_script at 1, batch_samples.
      cbn [fst snd].
      repeat (rewrite <- app_comm_cons || rewrite <- app_assoc). reflexivity. }
    pose proof (get_data_run (measures a) (sensor_start_delay a)
                  (sensor_operation_delay a) xs r0 r1 _ w Hk Hb Hsd Hod Hs') as Eg.
    destruct (cycle_run lib omnia a w _ _ Eg H25 H10 Hsafe)
      as (w' & led_evs & Ec & Es & E25 & E10 & _ & _).
    destruct (Z.ltb_spec (delay a) 0) as [Hneg|_]; [lia|].
    cbn [sensor dequeue_pm25 dequeue_pm10 fst snd] in Es, E25, E10.
    simpl main_loop. rewrite bind_run, Ec.
    assert (M25 : (1 <= maxlen (dequeue_pm25 w'))%nat) by (rewrite E25; exact H25).
    assert (M10 : (1 <= maxlen (dequeue_pm10 w'))%nat) by (rewrite E10; exact H10).
    destruct (IH w' M25 M10 Es) as (I1 & I2 & I3 & I4).
    rewrite I3, I4, E25, E10. repeat split; assumption.
Qed.

(** X15: on a sensor that answers n measurements in full, with a sample
    count of at least 1, non-negative delays, windows of capacity at least 1
    and an LED sink that cannot raise (the LEDs are off, or the machine has
    the LED files and every level aqipy returns has a color), the loop
    completes n cycles, has then used exactly the replies of these
    measurements, and each window is what pushing the n readings, one per
    cycle and oldest first, makes of it: from empty windows of capacity N,
    the last N readings. A reading is the rounded mean of its sub-samples
    in double arithmetic. *)
Theorem loop_of_good_batches (lib : aqipy) (omnia : bool) (a : args) (bs : list batch)
    (rest : list (option (float * float))) (w : world) :
  1 <= measures a ->
  0 <= sensor_start_delay a ->
  0 <= sensor_operation_delay a ->
  0 <= delay a ->
  (1 <= maxlen (dequeue_pm25 w))%nat ->
  (1 <= maxlen (dequeue_pm10 w))%nat ->
  leds_safe lib omnia a ->
  Forall (fun b => List.length (batch_samples b) = Z.to_nat (measures a)) bs ->
  sensor w = (flat_map batch_script bs ++ rest)%list ->
  fst (main_loop lib omnia a (List.length bs) w) = inr tt /\
  sensor (snd (main_loop lib omnia a (List.length bs) w)) = rest /\
  dequeue_pm25 (snd (main_loop lib omnia a (List.length bs) w))
  = push_all (dequeue_pm25 w) (map (fun b => fst (batch_reading b)) bs) /\
  dequeue_pm10 (snd (main_loop lib omnia a (List.length bs) w))
  = push_all (dequeue_pm10 w) (map (fun b => snd (batch_reading b)) bs) /\
  (forall N, dequeue_pm25 w = deque_new N ->
             items (dequeue_pm25 (snd (main_loop lib omnia a (List.length bs) w)))
             = lastn N (map (fun b => fst (batch_reading b)) bs)) /\
  (forall N, dequeue_pm10 w = deque_new N ->
             items (dequeue_pm10 (snd (main_loop lib omnia a (List.length bs) w)))
             = lastn N (map (fun b => snd (batch_reading b)) bs)).
Proof.
  intros Hk Hsd Hod Hdelay H25 H10 Hsafe Hbs Hs.
  destruct (main_loop_on_batches lib omnia a bs rest w Hk Hsd Hod Hdelay H25 H10 Hsafe Hbs Hs)
    as (G1 & G2 & G3 & G4).
  repeat split; try assumption.
  - intros N HN. rewrite G3, HN. apply push_all_items.
  - intros N HN. rewrite G4, HN. apply push_all_items.
Qed.

Lemma loop_of_good_batches_witness :
  fst (main_loop aqipy_sample false args_mqtt_only 2
         (started 1 (script_one_cycle
                     ++ [Some (0, 0); Some (0.3, 1); Some (0.4, 2); Some (0.2, 3);
                         Some (0, 0)]%float))) = inr tt /\
  items (dequeue_pm25
           (snd (main_loop aqipy_sample false args_mqtt_only 2
                   (started 1 (script_one_cycle
                               ++ [Some (0, 0); Some (0.3, 1); Some (0.4, 2);
                                   Some (0.2, 3); Some (0, 0)]%float)))))
  = [0.3]%float.
Proof.
  pose (w := started 1 (script_one_cycle
                        ++ [Some (0, 0); Some (0.3, 1); Some (0.4, 2); Some (0.2, 3);
                            Some (0, 0)]%float)).
  assert (H1 : 1 <= measures args_mqtt_only) by (simpl; lia).
  assert (H2 : 0 <= sensor_start_delay args_mqtt_only) by (simpl; lia).
  assert (H3 : 0 <= sensor_operation_delay args_mqtt_only) by (simpl; lia).
  assert (H4 : 0 <= delay args_mqtt_only) by (simpl; lia).
  assert (H5 : (1 <= maxlen (dequeue_pm25 w))%nat) by (simpl; lia).
  assert (H6 : (1 <= maxlen (dequeue_pm10 w))%nat) by (simpl; lia).
  assert (H7 : leds_safe aqipy_sample false args_mqtt_only) by (left; reflexivity).
  pose (b1 := ((0, 0), [(10, 20); (12, 22); (11, 21)], (0, 0))%float : batch).
  pose (b2 := ((0, 0), [(0.3, 1); (0.4, 2); (0.2, 3)], (0, 0))%float : batch).
  assert (H8 : Forall (fun b => List.length (batch_samples b)
                                = Z.to_nat (measures args_mqtt_only)) [b1; b2]).
  { repeat constructor. }
  pose proof (loop_of_good_batches aqipy_sample false args_mqtt_only [b1; b2] [] w
                H1 H2 H3 H4 H5 H6 H7 H8 eq_refl) as T.
  split.
  - exact (proj1 T).
  - exact (proj1 (proj2 (proj2 (proj2 (proj2 T)))) 1%nat eq_refl).
Defined.

(** ** Reading the gauges back *)

Lemma gauge_value_app (g : gauge) (a b : list event) :
  gauge_value g (a ++ b)
  = fold_left (fun v e =>
                 match e with
                 | GaugeSet h x => if gauge_eqb g h then x else v
                 | _ => v
                 end) b (gauge_value g a).
Proof. unfold gauge_value. apply fold_left_app. Qed.

Lemma gauge_value_sleeps (g : gauge) (a b : list event) :
  only_sleeps b -> gauge_value g (a ++ b) = gauge_value g a.
Proof.
  intros Hb. rewrite gauge_value_app. generalize (gauge_value g a).
  unfold only_sleeps in Hb. induction b as [|e b IH]; intros v; [reflexivity|].
  destruct e; simpl in Hb; try discriminate Hb. simpl. now apply IH.
Qed.

(** X17: [collect_all_data] reads back what the sampler last set: after a
    measurement that returned a reading it is that reading, under the keys
    pm25 and pm10; after a measurement that failed it is what it was
    before; before any measurement both values are 0; and reading changes
    nothing. *)
Theorem collect_after_measurement (k sd od : Z) (w : world) :
  match get_data k sd od w with
  | (inr pm, w') =>
      fst (collect_all_data w') = inr [("pm25", fst pm); ("pm10", snd pm)]
  | (inl _, w') => fst (collect_all_data w') = fst (collect_all_data w)
  end /\
  (trace w = [] ->
   fst (collect_all_data w) = inr [("pm25", 0%float); ("pm10", 0%float)]) /\
  snd (collect_all_data w) = w.
Proof.
  split; [|split; [intros E; unfold collect_all_data; rewrite E; reflexivity
                  | reflexivity]].
  pose proof (get_data_spec k sd od w) as H.
  destruct (get_data k sd od w) as [[e|[p25 p10]] w'].
  - destruct H as [_ (evs & Ht & Hs)]. unfold collect_all_data. simpl.
    now rewrite Ht, !gauge_value_sleeps.
  - destruct H as (w1 & _ & ->). unfold collect_all_data. simpl.
    now rewrite !gauge_value_app.
Qed.

(** ** From the command line to the windows *)

Lemma startup_run (a : args) (w : world) :
  In (country a) country_choices ->
  1 <= delay a ->
  exists ws,
    startup a w = (inr tt, ws) /\
    sensor ws = sensor w /\
    dequeue_pm25 ws
    = deque_new (Z.to_nat (Z.max 1 (averaging_seconds (country a) / delay a))) /\
    dequeue_pm10 ws
    = deque_new (Z.to_nat (Z.max 1 (averaging_seconds (country a) / delay a))) /\
    trace ws
    = (trace w ++ if prometheus a
                  then [HttpServerStart (arg_bind a) (arg_port a);
                        LoggedListening (arg_bind a) (arg_port a)]
                  else [])%list.
Proof.
  intros Hc Hd.
  assert (Hn : num_measures (country a) (delay a)
               = inr (Z.max 1 (averaging_seconds (country a) / delay a))).
  { unfold num_measures. rewrite (get_aqi_interval_supported _ Hc).
    destruct (Z.eqb_spec (delay a) 0) as [E|_]; [lia|].
    f_equal.
    destruct (Z.leb_spec (averaging_seconds (country a) / delay a) 0); lia. }
  unfold startup. rewrite bind_run. unfold lift. rewrite Hn.
  rewrite bind_run. unfold create_deques.
  destruct (prometheus a); unfold bind, emit, ret;
    cbn [fst snd sensor dequeue_pm25 dequeue_pm10 trace];
    eexists; (split; [reflexivity|]); cbn [sensor dequeue_pm25 dequeue_pm10 trace];
    rewrite <- ?app_assoc, ?app_nil_r; repeat split.
Qed.

(** X18: the whole script, on a command line that parses, with a delay and
    a sample count of at least 1, non-negative sensor delays, an LED sink
    that cannot raise (the LEDs are off, or the machine has the LED files
    and every level aqipy returns has a color) and a sensor that answers n
    measurements in full:
    start-up succeeds without a driver call, the loop completes n cycles on
    exactly the replies of these measurements, and each window then holds
    the last N readings, N being max(1, averaging_seconds // delay) for the
    parsed country. *)
Theorem program_on_good_sensor (lib : aqipy) (omnia : bool) (c : cmdline) (a : args)
    (bs : list batch) (rest : list (option (float * float))) :
  parse_args c = inr a ->
  1 <= delay a ->
  1 <= measures a ->
  0 <= sensor_start_delay a ->
  0 <= sensor_operation_delay a ->
  leds_safe lib omnia a ->
  Forall (fun b => List.length (batch_samples b) = Z.to_nat (measures a)) bs ->
  fst (program lib omnia c (List.length bs) (boot (flat_map batch_script bs ++ rest)))
  = inr tt /\
  sensor (snd (program lib omnia c (List.length bs) (boot (flat_map batch_script bs ++ rest))))
  = rest /\
  items (dequeue_pm25
           (snd (program lib omnia c (List.length bs) (boot (flat_map batch_script bs ++ rest)))))
  = lastn (Z.to_nat (Z.max 1 (averaging_seconds (country a) / delay a)))
      (map (fun b => fst (batch_reading b)) bs) /\
  items (dequeue_pm10
           (snd (program lib omnia c (List.length bs) (boot (flat_map batch_script bs ++ rest)))))
  = lastn (Z.to_nat (Z.max 1 (averaging_seconds (country a) / delay a)))
      (map (fun b => snd (batch_reading b)) bs).
Proof.
  intros Hp Hd Hk Hsd Hod Hsafe Hbs.
  pose proof (parse_args_country c a Hp) as Hc.
  destruct (startup_run a (boot (flat_map batch_script bs ++ rest)) Hc Hd)
    as (ws & Es & Ss & D25 & D10 & _).
  unfold program. rewrite bind_run. unfold lift. rewrite Hp.
  rewrite bind_run, Es.
  assert (Hdelay : 0 <= delay a) by lia.
  assert (M25 : (1 <= maxlen (dequeue_pm25 ws))%nat) by (rewrite D25; simpl; lia).
  assert (M10 : (1 <= maxlen (dequeue_pm10 ws))%nat) by (rewrite D10; simpl; lia).
  destruct (main_loop_on_batches lib omnia a bs rest ws Hk Hsd Hod Hdelay M25 M10 Hsafe Hbs Ss)
    as (G1 & G2 & G3 & G4).
  rewrite G3, G4, D25, D10, !push_all_items. repeat split; assumption.
Qed.

Lemma program_on_good_sensor_witness :
  fst (program aqipy_sample true cmdline_defaults 1 (boot script_one_cycle)) = inr tt.
Proof.
  assert (H1 : 1 <= delay args_defaults) by (simpl; lia).
  assert (H2 : 1 <= measures args_defaults) by (simpl; lia).
  assert (H3 : 0 <= sensor_start_delay args_defaults) by (simpl; lia).
  assert (H4 : 0 <= sensor_operation_delay args_defaults) by (simpl; lia).
  assert (H5 : leds_safe aqipy_sample true args_defaults) by (left; reflexivity).
  pose (b := ((0, 0), [(10, 20); (12, 22); (11, 21)],
              (0, 0))%float : batch).
  assert (H6 : Forall (fun b => List.length (batch_samples b)
                                = Z.to_nat (measures args_defaults)) [b]).
  { repeat constructor. }
  exact (proj1 (program_on_good_sensor aqipy_sample true cmdline_defaults args_defaults
                  [b] [] eq_refl H1 H2 H3 H4 H5 H6)).
Defined.

(** ** Where the sensor fails *)

Lemma query_loop_fails (xs : list (float * float)) (n : nat) (od : Z) (acc : float * float)
    (w : world) (rest : list (option (float * float))) :
  0 <= od ->
  (List.length xs < n)%nat ->
  sensor w = (map Some xs ++ None :: rest)%list ->
  fst (query_loop n od acc w) = inl SensorError /\
  sensor (snd (query_loop n od acc w)) = rest.
Proof.
  intros Hod. revert n acc w.
  induction xs as [|x xs IH]; intros n acc w Hn Hs;
    (destruct n as [|n]; [simpl in Hn; lia|]); simpl in Hs |- *.
  - rewrite bind_run. unfold sensor_query, sensor_call. rewrite Hs. now split.
  - rewrite bind_run. unfold sensor_query, sensor_call. rewrite Hs.
    rewrite bind_run. unfold time_sleep.
    destruct (Z.ltb_spec od 0) as [H|_]; [lia|].
    unfold emit. apply IH; [simpl in Hn; lia | reflexivity].
Qed.

(** X19: when the driver raises at one of the measures + 2 calls of a
    measurement (the wake-up, a query, or the sleep command) after answering
    the calls before it, the sampler ends in SensorError right there: it has
    used the replies up to and including the failing one, has made no
    metric call, and has left the windows alone. *)
Theorem sampler_sensor_failure (k sd od : Z) (good : list (float * float))
    (rest : list (option (float * float))) (w : world) :
  1 <= k ->
  0 <= sd ->
  0 <= od ->
  (List.length good <= Z.to_nat k + 1)%nat ->
  sensor w = (map Some good ++ None :: rest)%list ->
  fst (get_data k sd od w) = inl SensorError /\
  sensor (snd (get_data k sd od w)) = rest /\
  metrics (snd (get_data k sd od w)) = metrics w /\
  same_deques w (snd (get_data k sd od w)).
Proof.
  intros Hk Hsd Hod Hlen Hs.
  assert (G : exists w', get_data k sd od w = (inl SensorError, w') /\ sensor w' = rest).
  { unfold get_data. rewrite bind_run. unfold sensor_sleep. rewrite bind_run.
    unfold sensor_call.
    destruct good as [|r0 xs]; cbn [map app] in Hs; rewrite Hs;
      [eexists; split; reflexivity|].
    unfold ret at 1.
    rewrite bind_run. unfold time_sleep at 1.
    destruct (Z.ltb_spec sd 0) as [H|_]; [lia|]. unfold emit at 1.
    rewrite bind_run.
    simpl in Hlen.
    destruct (Nat.eq_dec (List.length xs) (Z.to_nat k)) as [E|Hne].
    - rewrite <- E.
      match goal with
      | |- context [query_loop _ od ?acc ?w0] =>
          rewrite (query_loop_run xs od acc w0 (None :: rest) Hod eq_refl)
      end.
      cbv beta iota. unfold float_div.
      destruct (Z.eqb_spec k 0) as [H|_]; [lia|].
      rewrite bind_run. unfold ret at 1. rewrite bind_run. unfold ret at 1.
      rewrite bind_run. rewrite bind_run.
      eexists; split; reflexivity.
    - match goal with
      | |- context [query_loop ?n od ?acc ?w0] =>
          destruct (query_loop_fails xs n od acc w0 rest Hod) as [F1 F2];
          [lia | reflexivity |];
          destruct (query_loop n od acc w0) as [[e|r] w3]
      end; simpl in F1, F2; [|discriminate F1].
      injection F1 as ->. now exists w3. }
  destruct G as (w' & G1 & G2).
  pose proof (get_data_spec k sd od w) as Hq.
  rewrite G1 in *. cbn [fst snd].
  repeat split; try assumption.
  - now apply quiet_metrics.
  - apply Hq.
  - apply Hq.
Qed.

Lemma sampler_sensor_failure_witness :
  fst (get_data 3 5 1
         (started 1 [Some (0, 0); Some (10, 20); None;
                     Some (11, 21)]%float)) = inl SensorError.
Proof.
  assert (H1 : 1 <= 3) by lia.
  assert (H2 : 0 <= 5) by lia.
  assert (H3 : 0 <= 1) by lia.
  refine (proj1 (sampler_sensor_failure 3 5 1 [(0, 0); (10, 20)]%float
                   [Some (11, 21)]%float
                   (started 1 [Some (0, 0); Some (10, 20); None;
                               Some (11, 21)]%float)
                   H1 H2 H3 _ eq_refl)).
  simpl. lia.
Defined.
